(** * Subdomain scanner: a shallow embedding of [subdomain_scanner.py]

    The development follows the layout of the source file: the string
    primitives the scanner relies on ([str.strip], [str.lower],
    [str.startswith], [json.dumps], [datetime.isoformat]), the three
    discovery methods, the probe pipeline [check_subdomain], the scan
    drivers and the output handlers.

    Conventions of the embedding.
    - A Python [str] is a Rocq [string]; a character stands for the code
      point of the same number, so the character functions below are the
      Python ones on code points below 256.
    - The network, the file system and the clock are the environment: a
      resolver oracle, an HTTP oracle, a file-reading oracle and a stream
      of clock readings, all section variables.  An oracle answers [None]
      where the Python call raises.
    - The worker pool runs one task per submitted candidate; a task probes
      (network only) and then updates the scanner inside [with self.lock].
      A run of the pool is therefore a sequence of such atomic completions,
      in an order the pool chooses. *)

From Stdlib Require Import ZArith NArith Ascii String List Lia Bool DecimalString.
From Stdlib Require Import Sorting.Permutation.
From stdpp Require Import base gmap sets list strings sorting.

Set Warnings "-register-all".
Local Open Scope Z_scope.

(** ** Characters and Python string primitives *)

Module Py.

Definition dquote : ascii := "034"%char.
Definition backslash : ascii := "\"%char.
Definition newline : ascii := "010"%char.
Definition creturn : ascii := "013"%char.

Definition chr (c : ascii) : string := String c EmptyString.

Definition nl : string := chr newline.
Definition dq : string := chr dquote.

(** [str.isspace] on one character: the code points below 256 that Python
    strips are 9..13, 28..32, 133 and 160. *)
Definition isspace (c : ascii) : bool :=
  let n := N_of_ascii c in
  (((9 <=? n) && (n <=? 13)) || ((28 <=? n) && (n <=? 32))
   || (n =? 133) || (n =? 160))%N.

(** [str.lower] on one character: A..Z and the capital letters 192..222
    (215, the multiplication sign, has no case) move up by 32. *)
Definition lower_char (c : ascii) : ascii :=
  let n := N_of_ascii c in
  if (((65 <=? n) && (n <=? 90))
      || ((192 <=? n) && (n <=? 222) && negb (n =? 215)))%N
  then ascii_of_N (n + 32) else c.

Fixpoint lower (s : string) : string :=
  match s with
  | EmptyString => EmptyString
  | String c s' => String (lower_char c) (lower s')
  end.

Fixpoint lstrip (s : string) : string :=
  match s with
  | EmptyString => EmptyString
  | String c s' => if isspace c then lstrip s' else s
  end.

Fixpoint rstrip (s : string) : string :=
  match s with
  | EmptyString => EmptyString
  | String c s' =>
      match rstrip s' with
      | EmptyString => if isspace c then EmptyString else chr c
      | r => String c r
      end
  end.

(** [s.strip()] *)
Definition strip (s : string) : string := rstrip (lstrip s).

(** [s.startswith(p)] *)
Definition startswith (s p : string) : bool := String.prefix p s.

(** [s.endswith(p)]: the suffix, read backwards, starts the string read
    backwards. *)
Definition endswith (s p : string) : bool :=
  String.prefix (String.rev p) (String.rev s).

(** [sep.join(l)] *)
Fixpoint join (sep : string) (l : list string) : string :=
  match l with
  | [] => EmptyString
  | [x] => x
  | x :: l' => x +:+ sep +:+ join sep l'
  end.

(** Truth value of a [str]: the empty string is false. *)
Definition truthy (s : string) : bool :=
  match s with EmptyString => false | _ => true end.

(** Iterating a text file ([for line in f]): the lines, each with its
    terminator.  Text mode translates the terminators carriage return and
    carriage return + line feed to a line feed. *)
Fixpoint lines_go (cur : string) (s : string) : list string :=
  match s with
  | EmptyString =>
      match cur with EmptyString => [] | _ => [String.rev cur] end
  | String c s' =>
      if Ascii.eqb c newline then
        String.rev (String newline cur) :: lines_go EmptyString s'
      else if Ascii.eqb c creturn then
        String.rev (String newline cur) ::
          match s' with
          | String c' s'' =>
              if Ascii.eqb c' newline then lines_go EmptyString s''
              else lines_go EmptyString s'
          | EmptyString => []
          end
      else lines_go (String c cur) s'
  end.

Definition readlines (text : string) : list string := lines_go EmptyString text.

(** The text before the first line feed: the first line of a file. *)
Fixpoint first_line (s : string) : string :=
  match s with
  | EmptyString => EmptyString
  | String c s' =>
      if Ascii.eqb c newline then EmptyString else String c (first_line s')
  end.

(** The text as text mode hands it to the program: a carriage return,
    alone or followed by a line feed, is read as one line feed. *)
Fixpoint universal_newlines (s : string) : string :=
  match s with
  | EmptyString => EmptyString
  | String c s' =>
      if Ascii.eqb c creturn then
        String newline
          match s' with
          | String c' s'' =>
              if Ascii.eqb c' newline then universal_newlines s''
              else universal_newlines s'
          | EmptyString => EmptyString
          end
      else String c (universal_newlines s')
  end.

(** Every character is white space. *)
Fixpoint all_space (s : string) : bool :=
  match s with
  | EmptyString => true
  | String c s' => isspace c && all_space s'
  end.

End Py.

(** ** [datetime] values and their two renderings *)

Module Datetime.

Record datetime := {
  year : N; month : N; day : N;
  hour : N; minute : N; second : N; microsecond : N
}.

Definition decimal (n : N) : string := NilEmpty.string_of_uint (N.to_uint n).

Fixpoint zeros (k : nat) : string :=
  match k with
  | O => EmptyString
  | S k' => String "0"%char (zeros k')
  end.

(** The [%0wd] conversion. *)
Definition pad (w : nat) (n : N) : string :=
  let d := decimal n in
  zeros (w - String.length d) +:+ d.

Definition date_part (t : datetime) : string :=
  pad 4 (year t) +:+ "-" +:+ pad 2 (month t) +:+ "-" +:+ pad 2 (day t).

Definition time_part (t : datetime) : string :=
  pad 2 (hour t) +:+ ":" +:+ pad 2 (minute t) +:+ ":" +:+ pad 2 (second t).

(** [t.isoformat()] of a naive datetime: the fraction is printed only when
    the microsecond field is not zero. *)
Definition isoformat (t : datetime) : string :=
  date_part t +:+ "T" +:+ time_part t +:+
  (if (microsecond t =? 0)%N then EmptyString
   else "." +:+ pad 6 (microsecond t)).

(** [t.strftime('%Y-%m-%d %H:%M:%S')]: unlike [isoformat], the [%Y] of
    the C library prints the year without padding. *)
Definition strftime_ymd_hms (t : datetime) : string :=
  decimal (year t) +:+ "-" +:+ pad 2 (month t) +:+ "-" +:+ pad 2 (day t)
  +:+ " " +:+ time_part t.

End Datetime.

(** ** [json.dumps] on the values the scanner serialises *)

Module Json.

Import Py.

Inductive json :=
| JStr (s : string)
| JArr (items : list json)
| JObj (fields : list (string * json)).

Definition hex_digit (n : N) : ascii :=
  match n with
  | 0 => "0" | 1 => "1" | 2 => "2" | 3 => "3" | 4 => "4" | 5 => "5"
  | 6 => "6" | 7 => "7" | 8 => "8" | 9 => "9" | 10 => "a" | 11 => "b"
  | 12 => "c" | 13 => "d" | 14 => "e" | _ => "f"
  end%N%char.

(** The replacement [json.encoder] makes for one character when
    [ensure_ascii] is on: the two-character escapes of its table, the
    printable ASCII characters unchanged, and [\u00xx] for the rest. *)
Definition escape_char (c : ascii) : string :=
  let n := N_of_ascii c in
  if Ascii.eqb c dquote then String backslash dq
  else if Ascii.eqb c backslash then String backslash (chr backslash)
  else if (n =? 8)%N then "\b"
  else if (n =? 12)%N then "\f"
  else if (n =? 10)%N then "\n"
  else if (n =? 13)%N then "\r"
  else if (n =? 9)%N then "\t"
  else if ((32 <=? n) && (n <=? 126))%N then chr c
  else "\u00" +:+ chr (hex_digit (n / 16)) +:+ chr (hex_digit (n mod 16)).

Fixpoint escape (s : string) : string :=
  match s with
  | EmptyString => EmptyString
  | String c s' => escape_char c +:+ escape s'
  end.

(** [py_encode_basestring_ascii] *)
Definition encode_string (s : string) : string := dq +:+ escape s +:+ dq.

(** [json.dumps] with the default separators, on strings, lists and
    dictionaries with string keys (in insertion order). *)
Fixpoint dumps (v : json) : string :=
  match v with
  | JStr s => encode_string s
  | JArr items => "[" +:+ join ", " (map dumps items) +:+ "]"
  | JObj fields =>
      "{" +:+
      join ", " (map (fun kv => encode_string (fst kv) +:+ ": " +:+ dumps (snd kv))
                     fields) +:+
      "}"
  end.

End Json.

(** ** The bracket structure of a JSON text

    A JSON text is read character by character: inside a string literal
    only the closing quote and the escape character matter, outside one
    each opening brace or bracket goes one level down and each closing one
    comes one level up.  A complete JSON value ends outside any string at
    the level it started from. *)

Module JsonText.

Import Py.

Record Lex := { in_string : bool; escaped : bool; depth : Z }.

Definition outside (d : Z) : Lex :=
  {| in_string := false; escaped := false; depth := d |}.

Definition inside (d : Z) : Lex :=
  {| in_string := true; escaped := false; depth := d |}.

Definition opens (c : ascii) : bool := Ascii.eqb c "{" || Ascii.eqb c "[".
Definition closes (c : ascii) : bool := Ascii.eqb c "}" || Ascii.eqb c "]".

Definition lex_char (st : Lex) (c : ascii) : Lex :=
  if in_string st then
    if escaped st then inside (depth st)
    else if Ascii.eqb c backslash then
      {| in_string := true; escaped := true; depth := depth st |}
    else if Ascii.eqb c dquote then outside (depth st)
    else st
  else if Ascii.eqb c dquote then inside (depth st)
  else if opens c then outside (depth st + 1)
  else if closes c then outside (depth st - 1)
  else st.

Fixpoint lex (st : Lex) (s : string) : Lex :=
  match s with
  | EmptyString => st
  | String c s' => lex (lex_char st c) s'
  end.

(** Characters that change nothing, inside a string or outside. *)
Definition quiet (c : ascii) : bool :=
  negb (Ascii.eqb c dquote || Ascii.eqb c backslash || opens c || closes c).

Fixpoint all_quiet (s : string) : bool :=
  match s with
  | EmptyString => true
  | String c s' => quiet c && all_quiet s'
  end.

(** Where reading a whole text ends. *)
Definition nesting (s : string) : Lex := lex (outside 0) s.

(** A text is closed when reading it ends outside any string, at level 0. *)
Definition is_closed (s : string) : bool :=
  let st := nesting s in
  negb (in_string st) && (depth st =? 0).

End JsonText.

(** ** Output handlers *)

Module Output.

Import Py Datetime Json.

(** The three subclasses of [OutputHandler]; [first_entry] is the only
    attribute a subclass adds. *)
Inductive Sink :=
| TextOutput
| JSONOutput (first_entry : bool)
| CSVOutput.

Record OutputHandler := {
  sink : Sink;
  filename : string;
  file : string;        (* the text written to [self.file] so far *)
  closed : bool
}.

Definition file_write (h : OutputHandler) (text : string) : OutputHandler :=
  {| sink := sink h; filename := filename h;
     file := file h +:+ text; closed := closed h |}.

Definition set_sink (h : OutputHandler) (k : Sink) : OutputHandler :=
  {| sink := k; filename := filename h; file := file h; closed := closed h |}.

Definition csv_header : string := "domain,ips,method,discovery_time".

Definition json_header (now : datetime) : string :=
  "{" +:+ dq +:+ "scan_info" +:+ dq +:+ ": {" +:+ dq +:+ "start_time" +:+ dq
  +:+ ": " +:+ dq +:+ isoformat now +:+ dq +:+ ", " +:+ dq +:+ "subdomains"
  +:+ dq +:+ ": [".

(** [write_header], by subclass.  The non-ASCII literals of the text banner
    are kept as the bytes of the source file. *)
Definition write_header (h : OutputHandler) (now : datetime) : OutputHandler :=
  match sink h with
  | TextOutput =>
      let h1 := file_write h ("# 子域名扫描报告" +:+ nl) in
      let h2 := file_write h1 ("# 目标域名: " +:+ nl) in
      let h3 := file_write h2 ("# 扫描时间: " +:+ strftime_ymd_hms now +:+ nl) in
      file_write h3 ("# " +:+ nl)
  | JSONOutput _ =>
      set_sink (file_write h (json_header now)) (JSONOutput true)
  | CSVOutput =>
      file_write h (csv_header +:+ nl)
  end.

(** [OutputHandler.__init__]: open (truncate) the file, write the header. *)
Definition open_handler (k : Sink) (name : string) (now : datetime) : OutputHandler :=
  write_header {| sink := k; filename := name; file := EmptyString; closed := false |} now.

Definition json_entry (domain : string) (ips : list string) (method : string)
    (now : datetime) : json :=
  JObj [("domain", JStr domain);
        ("ips", JArr (map JStr ips));
        ("method", JStr method);
        ("discovery_time", JStr (isoformat now))].

Definition csv_row (domain : string) (ips : list string) (method : string)
    (now : datetime) : string :=
  let ips_str := join ";" ips in
  dq +:+ domain +:+ dq +:+ "," +:+ dq +:+ ips_str +:+ dq +:+ "," +:+
  dq +:+ method +:+ dq +:+ "," +:+ dq +:+ isoformat now +:+ dq +:+ nl.

(** [write(domain, ips, method)], by subclass. *)
Definition write (h : OutputHandler) (domain : string) (ips : list string)
    (method : string) (now : datetime) : OutputHandler :=
  match sink h with
  | TextOutput => file_write h (domain +:+ nl)
  | JSONOutput first_entry =>
      let h1 := if negb first_entry then file_write h "," else h in
      let h2 := file_write h1 (dumps (json_entry domain ips method now)) in
      set_sink h2 (JSONOutput false)
  | CSVOutput => file_write h (csv_row domain ips method now)
  end.

(** [close()]: the JSON subclass writes its closing text first. *)
Definition close (h : OutputHandler) : OutputHandler :=
  let h1 := match sink h with
            | JSONOutput _ => file_write h "]}"
            | _ => h
            end in
  {| sink := sink h1; filename := filename h1; file := file h1; closed := true |}.

(** One call of [write] and the clock reading it takes. *)
Definition Entry : Type := string * list string * string * datetime.

Definition write_entry (h : OutputHandler) (e : Entry) : OutputHandler :=
  let '(domain, ips, method, now) := e in write h domain ips method now.

(** A field enclosed in double quotes. *)
Definition quoted (field : string) : string := dq +:+ field +:+ dq.

(** The row of an entry as the CSV format has it: four quoted fields
    separated by commas, the addresses joined by semicolons, then the end
    of the line. *)
Definition csv_line (e : Entry) : string :=
  let '(domain, ips, method, now) := e in
  join "," (map quoted [domain; join ";" ips; method; isoformat now]) +:+ nl.

Definition entry_domain (e : Entry) : string :=
  let '(domain, _, _, _) := e in domain.

(** The whole text a handler leaves in its file: the header written when
    it is opened at [start], the entries in order, the closing text. *)
Definition sink_output (k : Sink) (name : string) (start : datetime)
    (entries : list Entry) : string :=
  file (close (fold_left write_entry entries (open_handler k name start))).

End Output.

(** ** The scanner *)

Module Scanner.

Import Py Datetime Json Output.

(** Calls that leave the process. *)
Inductive NetCall :=
| Resolve (name : string)     (* [self.resolver.resolve(name, 'A')] *)
| Get (url : string).         (* [requests.get(url, ...)] *)

(** What opening and reading the word list gives. *)
Inductive FileRead :=
| FileNotFound                (* [FileNotFoundError] *)
| ReadFailure                 (* any other [Exception] *)
| FileText (text : string).

(** The lines the scanner prints, by kind and with their parameters. *)
Inductive Message :=
| LoadedMsg (count : nat)
| FileMissingMsg (path : string)
| ReadErrorMsg (path : string)
| ScanStartMsg (target : string) (count : nat)
| PoolMsg (workers : Z)
| CommonStartMsg (count : nat)
| FoundMsg (name method : string)
| ProgressMsg (checked : Z) (found : nat)
| ReportMsg (checked : Z) (found : list string)
| ScanErrorMsg.

(** A successful probe: the tuple [(full_domain, ips, method)]. *)
Definition Finding : Type := string * list string * string.

(** The scanner object, followed by the part of the environment it acts
    on: what was printed, the network calls made, and how many operations
    on output handlers took a clock reading. *)
Record SubdomainScanner := {
  domain : string;
  threads : Z;
  output : option string;
  found_subdomains : gset string;
  checked_count : Z;
  output_handlers : list OutputHandler;
  stdout : list Message;
  net_calls : list NetCall;
  clock_reads : nat
}.

Definition print (self : SubdomainScanner) (m : Message) : SubdomainScanner :=
  {| domain := domain self; threads := threads self; output := output self;
     found_subdomains := found_subdomains self;
     checked_count := checked_count self;
     output_handlers := output_handlers self;
     stdout := stdout self ++ [m];
     net_calls := net_calls self; clock_reads := clock_reads self |}.

Definition log_calls (self : SubdomainScanner) (calls : list NetCall) : SubdomainScanner :=
  {| domain := domain self; threads := threads self; output := output self;
     found_subdomains := found_subdomains self;
     checked_count := checked_count self;
     output_handlers := output_handlers self;
     stdout := stdout self;
     net_calls := net_calls self ++ calls; clock_reads := clock_reads self |}.

Definition set_count (self : SubdomainScanner) (n : Z) : SubdomainScanner :=
  {| domain := domain self; threads := threads self; output := output self;
     found_subdomains := found_subdomains self;
     checked_count := n;
     output_handlers := output_handlers self;
     stdout := stdout self;
     net_calls := net_calls self; clock_reads := clock_reads self |}.

Definition set_found (self : SubdomainScanner) (s : gset string) : SubdomainScanner :=
  {| domain := domain self; threads := threads self; output := output self;
     found_subdomains := s;
     checked_count := checked_count self;
     output_handlers := output_handlers self;
     stdout := stdout self;
     net_calls := net_calls self; clock_reads := clock_reads self |}.

Definition set_handlers (self : SubdomainScanner) (hs : list OutputHandler)
    (reads : nat) : SubdomainScanner :=
  {| domain := domain self; threads := threads self; output := output self;
     found_subdomains := found_subdomains self;
     checked_count := checked_count self;
     output_handlers := hs;
     stdout := stdout self;
     net_calls := net_calls self; clock_reads := reads |}.

(** The label [x] is what the line [line] of a word list contributes:
    the line without the white space around it, when that is not empty
    and does not start with [#]. *)
Definition keeps (line x : string) : Prop :=
  strip line = x /\ x <> EmptyString /\ startswith x "#" = false.

(** The scanner writes to one CSV file, which holds the header line and
    then the rows of [entries], each the record of a name found. *)
Definition csv_report (s : SubdomainScanner) (path : string)
    (h : OutputHandler) (entries : list Entry) : Prop :=
  output_handlers s = [h] /\ sink h = CSVOutput /\ filename h = path /\
  file h = csv_header +:+ nl +:+
           fold_right String.append EmptyString (map csv_line entries) /\
  Forall (fun e => entry_domain e ∈ found_subdomains s) entries.

(** *** Probes: computations that make network calls *)

Definition Probe (A : Type) : Type := A * list NetCall.

Definition ret {A} (a : A) : Probe A := (a, []).

Definition bind {A B} (m : Probe A) (k : A -> Probe B) : Probe B :=
  let (b, later) := k (fst m) in (b, snd m ++ later).

Notation "'call' x <- m ; k" := (bind m (fun x => k))
  (at level 10, x name, m at level 100, k at level 200).

(** The built-in candidates of [common_scan], as the source lists them. *)
Definition common_subdomains : list string :=
  [ "www"; "mail"; "ftp"; "localhost"; "webmail"; "smtp"; "pop"; "ns1"; "webdisk";
    "ns2"; "cpanel"; "whm"; "autodiscover"; "autoconfig"; "ns"; "test"; "admin";
    "blog"; "dev"; "api"; "secure"; "vpn"; "mobile"; "shop"; "app"; "cdn"; "m";
    "email"; "portal"; "support"; "forum"; "news"; "media"; "static"; "docs";
    "store"; "shop"; "db"; "sql"; "backup"; "old"; "new"; "beta"; "staging";
    "mail2"; "test"; "live"; "search"; "images"; "img"; "download"; "uploads";
    "video"; "music"; "demo"; "help"; "kb"; "wiki"; "status"; "monitor";
    "payment"; "billing"; "invoice"; "secure"; "ssl"; "cdn"; "cloud"; "server";
    "serv"; "service"; "services"; "app"; "apps"; "office"; "remote"; "share";
    "shared"; "sharepoint"; "ftp"; "file"; "files"; "doc"; "docs"; "document";
    "map"; "yiyan"; "chat"; "baijiahao"; "ti"; "zhidao" ].

Section WithEnvironment.

(** The resolver: the addresses of the A records, [None] when it raises. *)
Variable resolve : string -> option (list string).
(** [requests.get]: the status code of the final response, [None] when
    the request raises. *)
Variable http_get : string -> option Z.
(** Opening and reading a file by path. *)
Variable read_file : string -> FileRead.
(** [datetime.now()] at the n-th operation on an output handler. *)
Variable clock : nat -> datetime.
(** The order in which the pool lets the submitted tasks enter the
    locked region. *)
Variable schedule : list string -> list string.

Definition resolver_resolve (name : string) : Probe (option (list string)) :=
  (resolve name, [Resolve name]).

Definition requests_get (url : string) : Probe (option Z) :=
  (http_get url, [Get url]).

(** [__init__]: [domain.lower().strip()], then the handler chosen by the
    extension of the output path.  This is the constructor when the file
    of the handler can be opened; [Launch.run_main] has the case where
    [open] raises. *)
Definition init (domain_arg : string) (threads_arg : Z)
    (output_arg : option string) : SubdomainScanner :=
  let handlers :=
    match output_arg with
    | Some path =>
        if truthy path then
          if endswith path ".json" then [open_handler (JSONOutput true) path (clock 0)]
          else if endswith path ".csv" then [open_handler CSVOutput path (clock 0)]
          else [open_handler TextOutput path (clock 0)]
        else []
    | None => []
    end in
  {| domain := strip (lower domain_arg);
     threads := threads_arg;
     output := output_arg;
     found_subdomains := ∅;
     checked_count := 0;
     output_handlers := handlers;
     stdout := [];
     net_calls := [];
     clock_reads := length handlers |}.

(** [load_subdomains_from_file]: the list made from the set of kept
    lines, and the line printed. *)
Definition kept_labels (text : string) : gset string :=
  fold_left
    (fun (subdomains : gset string) (line : string) =>
       let subdomain := strip line in
       if truthy subdomain && negb (startswith subdomain "#")
       then subdomains ∪ {[subdomain]} else subdomains)
    (readlines text) ∅.

Definition load_subdomains_from_file (self : SubdomainScanner)
    (wordlist_file : string) : list string * SubdomainScanner :=
  match read_file wordlist_file with
  | FileText text =>
      let subdomains := kept_labels text in
      (elements subdomains, print self (LoadedMsg (size subdomains)))
  | FileNotFound => ([], print self (FileMissingMsg wordlist_file))
  | ReadFailure => ([], print self (ReadErrorMsg wordlist_file))
  end.

Definition full_name (self : SubdomainScanner) (subdomain : string) : string :=
  subdomain +:+ "." +:+ domain self.

Definition dns_scan (self : SubdomainScanner) (subdomain : string)
    : Probe (option Finding) :=
  let full_domain := full_name self subdomain in
  call answers <- resolver_resolve full_domain ;
  match answers with
  | Some ips => ret (Some (full_domain, ips, "DNS"))
  | None => ret None
  end.

Fixpoint http_try (full_domain : string) (protocols : list string)
    : Probe (option Finding) :=
  match protocols with
  | [] => ret None
  | protocol :: rest =>
      let url := protocol +:+ "://" +:+ full_domain in
      call response <- requests_get url ;
      match response with
      | Some status_code =>
          if status_code <? 400 then ret (Some (full_domain, [url], "HTTP"))
          else http_try full_domain rest
      | None => http_try full_domain rest
      end
  end.

(** A request to [url] answers, with a status code below 400. *)
Definition responds (url : string) : bool :=
  match http_get url with
  | Some status_code => status_code <? 400
  | None => false
  end.

Definition http_scan (self : SubdomainScanner) (subdomain : string)
    : Probe (option Finding) :=
  http_try (full_name self subdomain) ["https"; "http"].

Definition certificate_scan (self : SubdomainScanner) (subdomain : string)
    : Probe (option Finding) :=
  ret None.

(** One turn of the [for method in methods] loop of [check_subdomain],
    up to the test [if result]: a name that is none of the three leaves
    [result] as it was. *)
Definition run_method (self : SubdomainScanner) (subdomain method : string)
    (result : option Finding) : Probe (option Finding) :=
  if String.eqb method "dns" then dns_scan self subdomain
  else if String.eqb method "http" then http_scan self subdomain
  else if String.eqb method "cert" then certificate_scan self subdomain
  else ret result.

Fixpoint probe_loop (self : SubdomainScanner) (subdomain : string)
    (methods : list string) (result : option Finding) : Probe (option Finding) :=
  match methods with
  | [] => ret result
  | method :: rest =>
      call result' <- run_method self subdomain method result ;
      match result' with
      | Some _ => ret result'                        (* [break] *)
      | None => probe_loop self subdomain rest result'
      end
  end.

(** The probe pipeline: the loop, started with [result = None]. *)
Definition probe (self : SubdomainScanner) (subdomain : string)
    (methods : list string) : Probe (option Finding) :=
  probe_loop self subdomain methods None.

(** [for handler in self.output_handlers: handler.write(...)] *)
Fixpoint write_all (hs : list OutputHandler) (name : string)
    (ips : list string) (method : string) (reads : nat)
    : list OutputHandler * nat :=
  match hs with
  | [] => ([], reads)
  | h :: rest =>
      let h' := write h name ips method (clock reads) in
      let (rest', reads') := write_all rest name ips method (S reads) in
      (h' :: rest', reads')
  end.

(** The body of [with self.lock] in [check_subdomain]. *)
Definition record_result (self : SubdomainScanner) (result : option Finding)
    : option string * SubdomainScanner :=
  let self1 := set_count self (checked_count self + 1) in
  match result with
  | Some (name, ips, method) =>
      let self2 := set_found self1 (found_subdomains self1 ∪ {[name]}) in
      let self3 := print self2 (FoundMsg name method) in
      let (hs, reads) :=
        write_all (output_handlers self3) name ips method (clock_reads self3) in
      (Some name, set_handlers self3 hs reads)
  | None =>
      if checked_count self1 mod 100 =? 0 then
        (None, print self1 (ProgressMsg (checked_count self1)
                                        (size (found_subdomains self1))))
      else (None, self1)
  end.

Definition check_subdomain (self : SubdomainScanner) (subdomain : string)
    (methods : list string) : option string * SubdomainScanner :=
  let (result, calls) := probe self subdomain methods in
  record_result (log_calls self calls) result.

(** The pool: every submitted task runs [check_subdomain]; whatever a
    task returns or raises is dropped by the loop over the futures. *)
Definition run_tasks (self : SubdomainScanner) (order : list string)
    (methods : list string) : SubdomainScanner :=
  fold_left (fun s subdomain => snd (check_subdomain s subdomain methods))
            order self.

(** How a scan ends: normally, or by the exception the pool raises when
    it is created with no worker. *)
Inductive Outcome := Completed | Raised.

Definition run_pool (self : SubdomainScanner) (submitted : list string)
    (methods : list string) : Outcome * SubdomainScanner :=
  if threads self <=? 0 then (Raised, self)
  else (Completed, run_tasks self (schedule submitted) methods).

Definition scan_with_wordlist (self : SubdomainScanner)
    (wordlist_file : string) (methods : list string)
    : Outcome * SubdomainScanner :=
  let (subdomains, self1) := load_subdomains_from_file self wordlist_file in
  match subdomains with
  | [] => (Completed, self1)
  | _ =>
      let self2 := print self1 (ScanStartMsg (domain self1) (length subdomains)) in
      let self3 := print self2 (PoolMsg (threads self2)) in
      run_pool self3 subdomains methods
  end.

Definition common_scan (self : SubdomainScanner) (methods : list string)
    : Outcome * SubdomainScanner :=
  let self1 := print self (CommonStartMsg (length common_subdomains)) in
  run_pool self1 common_subdomains methods.

Definition close_all (hs : list OutputHandler) : list OutputHandler :=
  map close hs.

Definition generate_report (self : SubdomainScanner) : SubdomainScanner :=
  let self1 :=
    print self (ReportMsg (checked_count self)
                          (merge_sort String.le (elements (found_subdomains self)))) in
  set_handlers self1 (close_all (output_handlers self1)) (clock_reads self1).

(** The command line, after [argparse]. *)
Record Args := {
  arg_domain : string;
  arg_wordlist : option string;
  arg_threads : Z;
  arg_output : option string;
  arg_methods : list string
}.

Definition run_scan (scanner : SubdomainScanner) (args : Args)
    : Outcome * SubdomainScanner :=
  match arg_wordlist args with
  | Some path =>
      if truthy path then scan_with_wordlist scanner path (arg_methods args)
      else common_scan scanner (arg_methods args)
  | None => common_scan scanner (arg_methods args)
  end.

(** [main] once the scanner is constructed, and uninterrupted: scan, then
    report; an exception of the scan is printed and the report is
    generated all the same. *)
Definition main (args : Args) : SubdomainScanner :=
  let scanner := init (arg_domain args) (arg_threads args) (arg_output args) in
  match run_scan scanner args with
  | (Completed, s) => generate_report s
  | (Raised, s) => generate_report (print s ScanErrorMsg)
  end.

End WithEnvironment.

End Scanner.

(** ** The program, from the command line

    [main] builds the scanner before it enters its [try].  Two statements
    of the constructor call out of the program and may raise: the creation
    of the resolver, which reads the configuration of the system, and
    after it [open], for the output file.  When one of them raises the
    program stops there, with no scan, no report and no handler; when the
    resolver cannot be created the output file is not even opened.  In
    every other case the run is that of [Scanner.main].  Printing is taken
    to succeed. *)

Module Launch.

Import Py Output Scanner.

(** How the program ends. *)
Inductive Run :=
| Crashed                           (* the constructor raised *)
| Finished (s : SubdomainScanner).

(** What a run printed after the banner, and the handlers it leaves. *)
Definition printed (r : Run) : list Message :=
  match r with
  | Crashed => []
  | Finished s => stdout s
  end.

Definition handlers (r : Run) : list OutputHandler :=
  match r with
  | Crashed => []
  | Finished s => output_handlers s
  end.

Definition calls (r : Run) : list NetCall :=
  match r with
  | Crashed => []
  | Finished s => net_calls s
  end.

Section WithEnvironment.

Variable resolve : string -> option (list string).
Variable http_get : string -> option Z.
Variable read_file : string -> FileRead.
Variable clock : nat -> Datetime.datetime.
Variable schedule : list string -> list string.
(** [dns.resolver.Resolver()] returns. *)
Variable resolver_ready : bool.
(** [open(path, 'w')] succeeds. *)
Variable can_open : string -> bool.

(** The output file, if one is asked for, can be opened. *)
Definition output_opens (args : Args) : bool :=
  match arg_output args with
  | Some path => if truthy path then can_open path else true
  | None => true
  end.

(** [SubdomainScanner(...)] returns. *)
Definition constructs (args : Args) : bool :=
  resolver_ready && output_opens args.

Definition run_main (args : Args) : Run :=
  if constructs args
  then Finished (Scanner.main resolve http_get read_file clock schedule args)
  else Crashed.

(** The labels a run submits to the pool: those loaded from the word
    list when one is given, the built-in ones otherwise. *)
Definition candidates (args : Args) : list string :=
  match arg_wordlist args with
  | Some path =>
      if truthy path then
        fst (load_subdomains_from_file read_file
               (init clock (arg_domain args) (arg_threads args) (arg_output args))
               path)
      else common_subdomains
  | None => common_subdomains
  end.

End WithEnvironment.

End Launch.

(** ** Reading back a string literal written by [json.dumps]

    The reader follows the JSON grammar of string literals: the text up
    to the closing quote, with the two-character escapes and the
    four-digit [\u] escapes replaced by the characters they stand for.
    It returns the string read and the text left after the closing quote. *)

Module JsonRead.

Import Py Json.

Definition hex_value (c : ascii) : option N :=
  let n := N_of_ascii c in
  (if (48 <=? n) && (n <=? 57) then Some (n - 48)          (* 0 .. 9 *)
   else if (97 <=? n) && (n <=? 102) then Some (n - 87)    (* a .. f *)
   else if (65 <=? n) && (n <=? 70) then Some (n - 55)     (* A .. F *)
   else None)%N.

Definition hex4 (h1 h2 h3 h4 : ascii) : option N :=
  match hex_value h1, hex_value h2, hex_value h3, hex_value h4 with
  | Some a, Some b, Some c, Some d => Some (((a * 16 + b) * 16 + c) * 16 + d)%N
  | _, _, _, _ => None
  end.

(** The character a two-character escape stands for. *)
Definition simple_escape (e : ascii) : option ascii :=
  if Ascii.eqb e dquote then Some dquote
  else if Ascii.eqb e backslash then Some backslash
  else match e with
       | "/" => Some "/" | "b" => Some "008" | "f" => Some "012"
       | "n" => Some "010" | "r" => Some "013" | "t" => Some "009"
       | _ => None
       end%char.

Definition prepend (c : ascii) (r : option (string * string))
    : option (string * string) :=
  match r with
  | Some (s, rest) => Some (String c s, rest)
  | None => None
  end.

Fixpoint read_body (s : string) : option (string * string) :=
  match s with
  | EmptyString => None
  | String c s1 =>
      if Ascii.eqb c dquote then Some (EmptyString, s1)
      else if Ascii.eqb c backslash then
        match s1 with
        | EmptyString => None
        | String e s2 =>
            if Ascii.eqb e "u" then
              match s2 with
              | String h1 (String h2 (String h3 (String h4 s6))) =>
                  match hex4 h1 h2 h3 h4 with
                  | Some n =>
                      if (n <? 256)%N then prepend (ascii_of_N n) (read_body s6)
                      else None
                  | None => None
                  end
              | _ => None
              end
            else
              match simple_escape e with
              | Some c' => prepend c' (read_body s2)
              | None => None
              end
        end
      else prepend c (read_body s1)
  end.

(** A string literal at the head of [s]. *)
Definition read_string (s : string) : option (string * string) :=
  match s with
  | String c s1 => if Ascii.eqb c dquote then read_body s1 else None
  | EmptyString => None
  end.

(** Printable ASCII: the characters from the space to the tilde. *)
Definition printable (c : ascii) : bool :=
  let n := N_of_ascii c in ((32 <=? n) && (n <=? 126))%N.

Fixpoint all_printable (s : string) : bool :=
  match s with
  | EmptyString => true
  | String c s' => printable c && all_printable s'
  end.

End JsonRead.

(** ** Notions used to state properties of runs *)

Module Runs.

Import Py Output Scanner.

(** A progress line is printed at a multiple of one hundred checks. *)
Definition progress_at_hundreds (m : Message) : Prop :=
  match m with
  | ProgressMsg checked _ => checked mod 100 = 0 /\ 0 < checked
  | _ => True
  end.

(** The name, the addresses and the method of an entry: the record that
    was written, without the clock reading. *)
Definition entry_finding (e : Entry) : Finding :=
  let '(name, ips, method, _) := e in (name, ips, method).

(** The sink of a handler, whatever its [first_entry] flag. *)
Definition same_format (k1 k2 : Sink) : bool :=
  match k1, k2 with
  | TextOutput, TextOutput => true
  | JSONOutput _, JSONOutput _ => true
  | CSVOutput, CSVOutput => true
  | _, _ => false
  end.

(** The format [__init__] chooses for an output path. *)
Definition format_of_path (path : string) : Sink :=
  if endswith path ".json" then JSONOutput true
  else if endswith path ".csv" then CSVOutput
  else TextOutput.

(** The banner the text handler writes when it is opened. *)
Definition text_banner (now : Datetime.datetime) : string :=
  file (open_handler TextOutput EmptyString now).

End Runs.

(** ** A small environment to run the scanner in *)

Module Example.

Import Py Datetime Output Scanner.

Definition clock (n : nat) : datetime :=
  {| year := 2024; month := 5; day := 17;
     hour := 12; minute := 30; second := N.of_nat n; microsecond := 0 |}.

(** Two names resolve. *)
Definition resolve (name : string) : option (list string) :=
  if String.eqb name "www.example.com" then Some ["93.184.216.34"]
  else if String.eqb name "shop.example.com" then Some ["93.184.216.35"; "93.184.216.36"]
  else None.

(** One host answers over plain HTTP only, another refuses both. *)
Definition http_get (url : string) : option Z :=
  if String.eqb url "https://mail.example.com" then Some 503
  else if String.eqb url "http://mail.example.com" then Some 200
  else if String.eqb url "https://www.example.com" then Some 200
  else if String.eqb url "http://ftp.example.com" then Some 404
  else None.

Definition words : string :=
  "www" +:+ nl +:+ "# comment" +:+ nl +:+ nl +:+
  "  mail  " +:+ chr creturn +:+ nl +:+ "www" +:+ nl +:+ "nothing".

Definition read_file (path : string) : FileRead :=
  if String.eqb path "words.txt" then FileText words
  else if String.eqb path "locked.txt" then ReadFailure
  else FileNotFound.

(** The pool completes the tasks in the reverse of the order of submission. *)
Definition schedule (l : list string) : list string := rev l.

Definition scanner : SubdomainScanner := init clock " Example.COM " 50 None.

Definition common_args : Args :=
  {| arg_domain := "example.com"; arg_wordlist := None; arg_threads := 50;
     arg_output := None; arg_methods := ["dns"] |}.

Definition csv_args : Args :=
  {| arg_domain := "example.com"; arg_wordlist := Some "words.txt";
     arg_threads := 4; arg_output := Some "report.csv";
     arg_methods := ["dns"; "http"] |}.

End Example.

(** ** More runs in the small environment *)

Module MoreExamples.

Import Py Datetime Output Scanner.

(** A scanner that reports to a CSV file. *)
Definition reporting_scanner : SubdomainScanner :=
  init Example.clock "example.com" 4 (Some "report.csv").

Definition report_handler : OutputHandler :=
  open_handler CSVOutput "report.csv" (Example.clock 0).

(** [-t 0]: no worker. *)
Definition no_worker_args : Args :=
  {| arg_domain := "example.com"; arg_wordlist := None; arg_threads := 0;
     arg_output := Some "out.json"; arg_methods := ["dns"; "http"] |}.

(** [--methods cert]: the stub alone. *)
Definition stub_args : Args :=
  {| arg_domain := "example.com"; arg_wordlist := Some "words.txt";
     arg_threads := 8; arg_output := Some "found.txt"; arg_methods := ["cert"] |}.

(** Files can be created anywhere but under the directory [nodir]. *)
Definition can_open (path : string) : bool :=
  negb (String.prefix "nodir/" path).

Definition unopenable_args : Args :=
  {| arg_domain := "example.com"; arg_wordlist := None; arg_threads := 50;
     arg_output := Some "nodir/out.json"; arg_methods := ["dns"] |}.

(** [-t 0 -w ''], and [-t 0] with a word list of comments. *)
Definition no_worker_builtin_args : Args :=
  {| arg_domain := "example.com"; arg_wordlist := Some EmptyString;
     arg_threads := 0; arg_output := None; arg_methods := ["dns"] |}.

Definition no_worker_blank_args : Args :=
  {| arg_domain := "example.com"; arg_wordlist := Some "blank.txt";
     arg_threads := 0; arg_output := None; arg_methods := ["dns"] |}.

(** A word list whose first line is not a host label. *)
Definition odd_words : string := "evil.org/" +:+ nl +:+ "www" +:+ nl.

Definition odd_read_file (path : string) : FileRead :=
  if String.eqb path "odd.txt" then FileText odd_words
  else if String.eqb path "blank.txt" then FileText ("# nothing" +:+ nl +:+ nl)
  else FileNotFound.

Definition odd_args : Args :=
  {| arg_domain := "Example.com"; arg_wordlist := Some "odd.txt";
     arg_threads := 2; arg_output := None; arg_methods := ["http"] |}.

End MoreExamples.

(** * Properties *)

(** ** Strings *)

Module PyFacts.

Import Py.

Lemma string_app_cons (c : ascii) (a b : string) :
  String c a +:+ b = String c (a +:+ b).
Proof. reflexivity. Qed.

Lemma string_app_nil_l (s : string) : EmptyString +:+ s = s.
Proof. reflexivity. Qed.

Lemma string_app_nil_r (s : string) : s +:+ EmptyString = s.
Proof. induction s as [|c s IH]; [reflexivity|]. now rewrite string_app_cons, IH. Qed.

Lemma string_app_assoc (a b c : string) : (a +:+ b) +:+ c = a +:+ b +:+ c.
Proof.
  induction a as [|x a IH]; [reflexivity|]. now rewrite !string_app_cons, IH.
Qed.

Lemma isspace_lower_char (c : ascii) : isspace (lower_char c) = isspace c.
Proof. destruct c as [[] [] [] [] [] [] [] []]; reflexivity. Qed.

Lemma lower_lstrip (s : string) : lower (lstrip s) = lstrip (lower s).
Proof.
  induction s as [|c s IH]; [reflexivity|].
  cbn. rewrite isspace_lower_char. destruct (isspace c); [exact IH | reflexivity].
Qed.

Lemma lower_rstrip (s : string) : lower (rstrip s) = rstrip (lower s).
Proof.
  induction s as [|c s IH]; [reflexivity|].
  cbn. rewrite <- IH, isspace_lower_char.
  destruct (rstrip s) as [|d r]; cbn.
  - destruct (isspace c); reflexivity.
  - reflexivity.
Qed.

(** Lowering and stripping commute: no character changes between white
    space and the rest when it is lowered. *)
Lemma lower_strip (s : string) : lower (strip s) = strip (lower s).
Proof. unfold strip. now rewrite lower_rstrip, lower_lstrip. Qed.

Lemma first_line_app_nl (a rest : string) :
  first_line a = a -> first_line (a +:+ nl +:+ rest) = a.
Proof.
  induction a as [|c a IH]; intros H.
  - reflexivity.
  - rewrite string_app_cons. cbn in *. destruct (Ascii.eqb c newline); [discriminate|].
    f_equal. apply IH. congruence.
Qed.

Lemma endswith_csv_not_json (s : string) :
  endswith s ".csv" = true -> endswith s ".json" = false.
Proof.
  unfold endswith.
  change (String.rev ".csv") with "vsc.".
  change (String.rev ".json") with "nosj.".
  destruct (String.rev s) as [|c r]; [discriminate|].
  cbn -[ascii_dec]. destruct (ascii_dec "v" c) as [<-|]; intros H;
    [reflexivity | discriminate H].
Qed.

(** What [lstrip], [rstrip] and [strip] remove is white space, and what
    they leave has none at the end they trimmed. *)
Lemma lstrip_spec (s : string) :
  exists pre, s = pre +:+ lstrip s /\ all_space pre = true.
Proof.
  induction s as [|c s (pre & E & Hp)].
  - now exists EmptyString.
  - cbn [lstrip]. destruct (isspace c) eqn:Hc.
    + exists (String c pre). rewrite string_app_cons, <- E.
      cbn [all_space]. now rewrite Hc, Hp.
    + now exists EmptyString.
Qed.

Lemma rstrip_spec (s : string) :
  exists post, s = rstrip s +:+ post /\ all_space post = true.
Proof.
  induction s as [|c s (post & E & Hp)].
  - now exists EmptyString.
  - cbn [rstrip]. destruct (rstrip s) as [|d r] eqn:Er.
    + destruct (isspace c) eqn:Hc.
      * exists (String c s). split; [reflexivity|].
        cbn [all_space]. rewrite Hc. cbn. rewrite E. exact Hp.
      * exists post. unfold chr. rewrite string_app_cons. now rewrite <- E.
    + exists post. rewrite string_app_cons. now rewrite <- E.
Qed.

Lemma lstrip_idem (s : string) : lstrip (lstrip s) = lstrip s.
Proof.
  induction s as [|c s IH]; [reflexivity|].
  cbn [lstrip]. destruct (isspace c) eqn:Hc; [exact IH|].
  cbn [lstrip]. now rewrite Hc.
Qed.

Lemma rstrip_idem (s : string) : rstrip (rstrip s) = rstrip s.
Proof.
  induction s as [|c s IH]; [reflexivity|].
  cbn [rstrip]. destruct (rstrip s) as [|d r] eqn:Er.
  - destruct (isspace c) eqn:Hc; [reflexivity|].
    unfold chr. cbn [rstrip]. now rewrite Hc.
  - cbn [rstrip]. cbn [rstrip] in IH. rewrite IH. reflexivity.
Qed.

Lemma lstrip_rstrip_fixed (s : string) : lstrip s = s -> lstrip (rstrip s) = rstrip s.
Proof.
  destruct s as [|c s]; [reflexivity|].
  cbn [lstrip]. destruct (isspace c) eqn:Hc.
  - intros H. exfalso.
    destruct (lstrip_spec s) as (pre & E & _).
    assert (L : String.length s = (String.length pre + String.length (lstrip s))%nat).
    { rewrite E at 1. clear. induction pre; cbn; [reflexivity|].
      rewrite string_app_cons. cbn. now f_equal. }
    rewrite H in L. cbn in L. lia.
  - intros _. cbn [rstrip].
    destruct (rstrip s); rewrite ?Hc; unfold chr; cbn [lstrip]; now rewrite Hc.
Qed.

Lemma strip_spec (s : string) :
  exists pre post,
    s = pre +:+ strip s +:+ post /\
    all_space pre = true /\ all_space post = true /\
    lstrip (strip s) = strip s /\ rstrip (strip s) = strip s.
Proof.
  destruct (lstrip_spec s) as (pre & E1 & H1).
  destruct (rstrip_spec (lstrip s)) as (post & E2 & H2).
  exists pre, post. unfold strip. repeat split; try assumption.
  - now rewrite <- E2.
  - apply lstrip_rstrip_fixed, lstrip_idem.
  - apply rstrip_idem.
Qed.

Lemma truthy_iff (s : string) : truthy s = true <-> s <> EmptyString.
Proof. destruct s; cbn; split; congruence. Qed.

(** *** The lines of a text *)

Lemma rev_app_spec (a b : string) :
  String.rev_app a b = String.rev a +:+ b.
Proof.
  unfold String.rev. revert b. induction a as [|c a IH]; intros b; [reflexivity|].
  cbn [String.rev_app]. rewrite (IH (String c b)), (IH (String c EmptyString)).
  now rewrite string_app_assoc.
Qed.

Lemma rev_cons (c : ascii) (a : string) :
  String.rev (String c a) = String.rev a +:+ chr c.
Proof. unfold String.rev at 1. cbn [String.rev_app]. apply rev_app_spec. Qed.

Lemma app_empty_inv (a b : string) : a +:+ b = EmptyString -> b = EmptyString.
Proof. destruct a; [auto|]. rewrite string_app_cons. discriminate. Qed.

Lemma first_line_app (a b : string) :
  first_line a = a -> first_line (a +:+ b) = a +:+ first_line b.
Proof.
  induction a as [|c a IH]; intros H; [reflexivity|].
  rewrite !string_app_cons. cbn [first_line] in *.
  destruct (Ascii.eqb c newline); [discriminate|].
  f_equal. apply IH. congruence.
Qed.

Lemma universal_newlines_app (a b : string) :
  universal_newlines a = a ->
  universal_newlines (a +:+ b) = a +:+ universal_newlines b.
Proof.
  induction a as [|c a IH]; intros H; [reflexivity|].
  rewrite !string_app_cons. cbn [universal_newlines] in *.
  destruct (Ascii.eqb c creturn) eqn:E.
  - exfalso. apply Ascii.eqb_eq in E. subst c. inversion H.
  - f_equal. apply IH. congruence.
Qed.

(** What [lines_go] returns, for an accumulator that holds no line
    break: the lines put end to end are the text read so far followed by
    the rest of the text as text mode reads it; no line holds a carriage
    return; every line ends with its only line feed, except that a last
    line, not empty, may hold none. *)
Lemma lines_go_spec (n : nat) :
  forall s cur : string,
  (String.length s <= n)%nat ->
  first_line (String.rev cur) = String.rev cur ->
  universal_newlines (String.rev cur) = String.rev cur ->
  fold_right String.append EmptyString (lines_go cur s) =
    String.rev cur +:+ universal_newlines s /\
  Forall (fun l : string => universal_newlines l = l) (lines_go cur s) /\
  exists full last,
    lines_go cur s = full ++ last /\
    Forall (fun l : string => l = first_line l +:+ nl) full /\
    (last = [] \/ exists l, last = [l] /\ l <> EmptyString /\ first_line l = l).
Proof.
  induction n as [|n IH]; intros s cur Hlen Hf Hu.
  - destruct s as [|c s]; [|cbn in Hlen; lia].
    cbn [lines_go universal_newlines]. destruct cur as [|d cur].
    + split; [reflexivity|]. split; [constructor|].
      exists [], []. repeat split; auto.
    + split; [cbn; now rewrite !string_app_nil_r|].
      split; [constructor; [exact Hu | constructor]|].
      exists [], [String.rev (String d cur)]. repeat split; auto.
      right. eexists. split; [reflexivity|]. split; [|exact Hf].
      rewrite rev_cons. intros E. apply app_empty_inv in E. discriminate E.
  - destruct s as [|c s].
    { apply IH; [cbn; lia | exact Hf | exact Hu]. }
    cbn [String.length] in Hlen.
    assert (Hl1 : String.rev (String newline cur) =
                  first_line (String.rev (String newline cur)) +:+ nl).
    { rewrite rev_cons. change (chr newline) with nl.
      rewrite <- (string_app_nil_r nl) at 2.
      now rewrite (first_line_app_nl _ EmptyString Hf). }
    assert (Hl2 : universal_newlines (String.rev (String newline cur)) =
                  String.rev (String newline cur)).
    { rewrite rev_cons. change (chr newline) with nl.
      now rewrite universal_newlines_app. }
    (* a finished line, followed by the lines of the rest [t] *)
    assert (Hcons : forall t : string, (String.length t <= n)%nat ->
              fold_right String.append EmptyString
                (String.rev (String newline cur) :: lines_go EmptyString t) =
                String.rev cur +:+ String newline (universal_newlines t) /\
              Forall (fun l : string => universal_newlines l = l)
                (String.rev (String newline cur) :: lines_go EmptyString t) /\
              exists full last,
                String.rev (String newline cur) :: lines_go EmptyString t =
                  full ++ last /\
                Forall (fun l : string => l = first_line l +:+ nl) full /\
                (last = [] \/
                 exists l, last = [l] /\ l <> EmptyString /\ first_line l = l)).
    { intros t Ht.
      destruct (IH t EmptyString Ht eq_refl eq_refl)
        as (I1 & I2 & full & last & I3 & I4 & I5).
      split; [|split].
      - cbn [fold_right]. rewrite I1, rev_cons. change (chr newline) with nl.
        now rewrite string_app_assoc.
      - constructor; assumption.
      - exists (String.rev (String newline cur) :: full), last.
        split; [now rewrite I3|]. split; [constructor; assumption | exact I5]. }
    cbn [lines_go universal_newlines].
    destruct (Ascii.eqb c newline) eqn:En; [|destruct (Ascii.eqb c creturn) eqn:Ec].
    + apply Ascii.eqb_eq in En. subst c.
      change (Ascii.eqb newline creturn) with false. cbn iota.
      apply Hcons. lia.
    + destruct s as [|c' s'].
      * split; [|split].
        -- cbn [fold_right]. rewrite rev_cons. change (chr newline) with nl.
           now rewrite string_app_nil_r.
        -- constructor; [exact Hl2 | constructor].
        -- exists [String.rev (String newline cur)], [].
           split; [reflexivity|]. split; [|now left].
           constructor; [exact Hl1 | constructor].
      * cbn [String.length] in Hlen.
        destruct (Ascii.eqb c' newline); apply Hcons; cbn [String.length]; lia.
    + assert (Hf' : first_line (String.rev (String c cur)) = String.rev (String c cur)).
      { rewrite rev_cons, (first_line_app _ _ Hf). f_equal.
        cbn [chr first_line]. now rewrite En. }
      assert (Hu' : universal_newlines (String.rev (String c cur)) =
                    String.rev (String c cur)).
      { rewrite rev_cons, (universal_newlines_app _ _ Hu). f_equal.
        cbn [chr universal_newlines]. now rewrite Ec. }
      destruct (IH s (String c cur) ltac:(lia) Hf' Hu') as (I1 & I2 & I3).
      split; [|split; [exact I2 | exact I3]].
      rewrite I1, rev_cons. now rewrite string_app_assoc.
Qed.

(** The lines of a text, put end to end, are the text as text mode reads
    it; no line holds a carriage return; every line ends with its only
    line feed, except that a last line, not empty, may hold none. *)
Lemma readlines_spec (text : string) :
  fold_right String.append EmptyString (readlines text) = universal_newlines text /\
  Forall (fun l : string => universal_newlines l = l) (readlines text) /\
  exists full last,
    readlines text = full ++ last /\
    Forall (fun l : string => l = first_line l +:+ nl) full /\
    (last = [] \/ exists l, last = [l] /\ l <> EmptyString /\ first_line l = l).
Proof.
  exact (lines_go_spec (String.length text) text EmptyString (le_n _) eq_refl eq_refl).
Qed.

End PyFacts.


(** ** The bracket structure of what [json.dumps] and the JSON handler write *)

Module JsonFacts.

Import Py Datetime Json JsonText Output PyFacts.

Lemma lex_app (a b : string) (st : Lex) : lex st (a +:+ b) = lex (lex st a) b.
Proof.
  revert st. induction a as [|c a IH]; intros st; [reflexivity|].
  rewrite string_app_cons. cbn [lex]. apply IH.
Qed.

Lemma all_quiet_app (a b : string) :
  all_quiet (a +:+ b) = all_quiet a && all_quiet b.
Proof.
  induction a as [|c a IH]; [reflexivity|].
  rewrite string_app_cons. cbn [all_quiet]. now rewrite IH, andb_assoc.
Qed.

Lemma lex_char_quiet (st : Lex) (c : ascii) :
  quiet c = true -> escaped st = false -> lex_char st c = st.
Proof.
  unfold quiet, lex_char. intros Hq He. rewrite He.
  destruct (Ascii.eqb c dquote), (Ascii.eqb c backslash), (opens c), (closes c);
    try discriminate Hq.
  now destruct (in_string st).
Qed.

Lemma lex_quiet (s : string) (st : Lex) :
  all_quiet s = true -> escaped st = false -> lex st s = st.
Proof.
  induction s as [|c s IH]; intros Hq He; [reflexivity|].
  cbn [all_quiet] in Hq. apply andb_prop in Hq as [Hc Hs].
  cbn [lex]. rewrite lex_char_quiet by assumption. now apply IH.
Qed.

Lemma uint_quiet (d : Decimal.uint) : all_quiet (NilEmpty.string_of_uint d) = true.
Proof. induction d; cbn [NilEmpty.string_of_uint all_quiet]; auto. Qed.

Lemma zeros_quiet (k : nat) : all_quiet (zeros k) = true.
Proof. induction k; cbn [zeros all_quiet]; auto. Qed.

Lemma pad_quiet (w : nat) (n : N) : all_quiet (pad w n) = true.
Proof.
  unfold pad, decimal. now rewrite all_quiet_app, zeros_quiet, uint_quiet.
Qed.

Lemma isoformat_quiet (t : datetime) : all_quiet (isoformat t) = true.
Proof.
  unfold isoformat, date_part, time_part.
  destruct (microsecond t =? 0)%N;
    rewrite ?string_app_assoc, ?all_quiet_app, ?pad_quiet; reflexivity.
Qed.

Lemma lex_escape_char (c : ascii) (d : Z) :
  lex (inside d) (escape_char c) = inside d.
Proof. destruct c as [[] [] [] [] [] [] [] []]; reflexivity. Qed.

Lemma lex_escape (s : string) (d : Z) : lex (inside d) (escape s) = inside d.
Proof.
  induction s as [|c s IH]; [reflexivity|].
  cbn [escape]. now rewrite lex_app, lex_escape_char.
Qed.

Lemma lex_dq_outside (d : Z) : lex (outside d) dq = inside d.
Proof. reflexivity. Qed.

Lemma lex_dq_inside (d : Z) : lex (inside d) dq = outside d.
Proof. reflexivity. Qed.

(** A string literal written by [json.dumps] is read as one string. *)
Lemma lex_encode_string (s : string) (d : Z) :
  lex (outside d) (encode_string s) = outside d.
Proof.
  unfold encode_string.
  now rewrite !lex_app, lex_dq_outside, lex_escape, lex_dq_inside.
Qed.

Lemma lex_strings (l : list string) (d : Z) :
  lex (outside d) (join ", " (map dumps (map JStr l))) = outside d.
Proof.
  induction l as [|x l IH]; [reflexivity|].
  destruct l as [|y l].
  - cbn [map join dumps]. apply lex_encode_string.
  - change (join ", " (map dumps (map JStr (x :: y :: l))))
      with (encode_string x +:+ ", " +:+ join ", " (map dumps (map JStr (y :: l)))).
    rewrite !lex_app, lex_encode_string.
    change (lex (outside d) ", ") with (outside d). exact IH.
Qed.

(** An entry written by the JSON handler is read as one closed object. *)
Lemma lex_entry (name : string) (ips : list string) (method : string)
    (now : datetime) (d : Z) :
  lex (outside d) (dumps (json_entry name ips method now)) = outside d.
Proof.
  unfold json_entry. cbn [dumps map join fst snd].
  rewrite !lex_app.
  change (lex (outside d) "{") with (outside (d + 1)).
  rewrite !lex_encode_string.
  change (lex (outside (d + 1)) ": ") with (outside (d + 1)).
  rewrite !lex_encode_string.
  change (lex (outside (d + 1)) ", ") with (outside (d + 1)).
  rewrite !lex_encode_string.
  change (lex (outside (d + 1)) ": ") with (outside (d + 1)).
  change (lex (outside (d + 1)) "[") with (outside (d + 1 + 1)).
  rewrite lex_strings.
  change (lex (outside (d + 1 + 1)) "]") with (outside (d + 1 + 1 - 1)).
  replace (d + 1 + 1 - 1) with (d + 1) by lia.
  change (lex (outside (d + 1)) ", ") with (outside (d + 1)).
  rewrite !lex_encode_string.
  change (lex (outside (d + 1)) ": ") with (outside (d + 1)).
  rewrite !lex_encode_string.
  change (lex (outside (d + 1)) ", ") with (outside (d + 1)).
  rewrite !lex_encode_string.
  change (lex (outside (d + 1)) ": ") with (outside (d + 1)).
  rewrite !lex_encode_string.
  change (lex (outside (d + 1)) "}") with (outside (d + 1 - 1)).
  f_equal. lia.
Qed.

(** The header leaves two objects and one array open. *)
Lemma lex_json_header (now : datetime) :
  nesting (json_header now) = outside 3.
Proof.
  unfold nesting, json_header. rewrite !lex_app.
  change (lex (outside 0) "{") with (outside 1).
  rewrite lex_dq_outside.
  change (lex (inside 1) "scan_info") with (inside 1).
  rewrite lex_dq_inside.
  change (lex (outside 1) ": {") with (outside 2).
  rewrite lex_dq_outside.
  change (lex (inside 2) "start_time") with (inside 2).
  rewrite lex_dq_inside.
  change (lex (outside 2) ": ") with (outside 2).
  rewrite lex_dq_outside.
  rewrite (lex_quiet (isoformat now)) by (apply isoformat_quiet || reflexivity).
  rewrite lex_dq_inside.
  change (lex (outside 2) ", ") with (outside 2).
  rewrite lex_dq_outside.
  change (lex (inside 2) "subdomains") with (inside 2).
  rewrite lex_dq_inside.
  reflexivity.
Qed.

End JsonFacts.


(** ** Output handlers *)

Module OutputFacts.

Import Py Datetime Json JsonText Output PyFacts JsonFacts.

Lemma fold_write_app (entries more : list Entry) (h : OutputHandler) :
  fold_left write_entry (entries ++ more) h =
  fold_left write_entry more (fold_left write_entry entries h).
Proof. apply fold_left_app. Qed.

(** *** The JSON handler *)

Lemma json_write_nesting (h : OutputHandler) (e : Entry) (b : bool) :
  sink h = JSONOutput b -> nesting (file h) = outside 3 ->
  sink (write_entry h e) = JSONOutput false /\
  nesting (file (write_entry h e)) = outside 3.
Proof.
  destruct e as [[[name ips] method] now]. intros Hs Hn.
  unfold write_entry, write. rewrite Hs. split; [reflexivity|].
  unfold nesting in *. destruct b; cbn [negb set_sink file_write file].
  - now rewrite lex_app, Hn, lex_entry.
  - rewrite !lex_app, Hn.
    change (lex (outside 3) ",") with (outside 3). apply lex_entry.
Qed.

Lemma json_writes_nesting (entries : list Entry) (h : OutputHandler) (b : bool) :
  sink h = JSONOutput b -> nesting (file h) = outside 3 ->
  exists b', sink (fold_left write_entry entries h) = JSONOutput b' /\
             nesting (file (fold_left write_entry entries h)) = outside 3.
Proof.
  revert h b. induction entries as [|e entries IH]; intros h b Hs Hn.
  - exists b. now split.
  - cbn [fold_left]. destruct (json_write_nesting h e b Hs Hn) as [Hs' Hn'].
    exact (IH _ _ Hs' Hn').
Qed.

Lemma json_open_nesting (name : string) (start : datetime) (b : bool) :
  sink (open_handler (JSONOutput b) name start) = JSONOutput true /\
  nesting (file (open_handler (JSONOutput b) name start)) = outside 3.
Proof. split; [reflexivity|]. apply lex_json_header. Qed.

(** C1.  The claim: the whole text of a JSON sink (header, the entries,
    the closing text) parses as a JSON value whose shape is an object
    holding [scan_info].  What the handler writes instead, for every file
    name, start time and sequence of entries: a text that is read to its
    end with one object still open, because [close] writes one closing
    brace for the two that the header opened; one more closing brace would
    close it. *)
Theorem json_sink_output_left_open (name : string) (start : datetime)
    (entries : list Entry) :
  let text := sink_output (JSONOutput true) name start entries in
  nesting text = outside 1 /\
  is_closed text = false /\
  is_closed (text +:+ "}") = true.
Proof.
  destruct (json_open_nesting name start true) as [Hs Hn].
  destruct (json_writes_nesting entries _ _ Hs Hn) as (b & Hs' & Hn').
  assert (H : nesting (sink_output (JSONOutput true) name start entries) = outside 1).
  { unfold sink_output, close. rewrite Hs'. cbn [file file_write].
    unfold nesting in *. now rewrite lex_app, Hn'. }
  cbn zeta. split; [exact H|]. unfold is_closed. split.
  - now rewrite H.
  - unfold nesting in *. now rewrite lex_app, H.
Qed.

(** *** The CSV handler *)

Lemma csv_row_line (name : string) (ips : list string) (method : string)
    (now : datetime) :
  csv_row name ips method now = csv_line (name, ips, method, now).
Proof.
  unfold csv_row, csv_line, quoted. cbn [map join].
  now rewrite !string_app_assoc.
Qed.

Lemma csv_writes (entries : list Entry) (h : OutputHandler) :
  sink h = CSVOutput ->
  sink (fold_left write_entry entries h) = CSVOutput /\
  file (fold_left write_entry entries h) =
    file h +:+ fold_right String.append EmptyString (map csv_line entries).
Proof.
  revert h. induction entries as [|e entries IH]; intros h Hs.
  - split; [exact Hs|]. cbn. now rewrite string_app_nil_r.
  - cbn [fold_left map fold_right].
    assert (Hw : sink (write_entry h e) = CSVOutput /\
                 file (write_entry h e) = file h +:+ csv_line e).
    { destruct e as [[[name ips] method] now]. unfold write_entry, write.
      rewrite Hs. cbn [file_write sink file]. now rewrite csv_row_line. }
    destruct Hw as [Hs' Hf']. destruct (IH _ Hs') as [Hs'' Hf''].
    split; [exact Hs''|]. now rewrite Hf'', Hf', string_app_assoc.
Qed.

Lemma first_line_csv (rest : string) :
  first_line (csv_header +:+ nl +:+ rest) = "domain,ips,method,discovery_time".
Proof. reflexivity. Qed.

End OutputFacts.


(** ** The scanner *)

Module ScannerFacts.

Import Py Datetime Json JsonText Output Scanner PyFacts OutputFacts.

Section WithEnvironment.

Variable resolve : string -> option (list string).
Variable http_get : string -> option Z.
Variable read_file : string -> FileRead.
Variable clock : nat -> datetime.
Variable schedule : list string -> list string.

Abbreviation init := (Scanner.init clock).
Abbreviation dns_scan := (Scanner.dns_scan resolve).
Abbreviation http_try := (Scanner.http_try http_get).
Abbreviation http_scan := (Scanner.http_scan http_get).
Abbreviation responds := (Scanner.responds http_get).
Abbreviation run_method := (Scanner.run_method resolve http_get).
Abbreviation probe_loop := (Scanner.probe_loop resolve http_get).
Abbreviation probe := (Scanner.probe resolve http_get).
Abbreviation write_all := (Scanner.write_all clock).
Abbreviation record_result := (Scanner.record_result clock).
Abbreviation check_subdomain := (Scanner.check_subdomain resolve http_get clock).
Abbreviation run_tasks := (Scanner.run_tasks resolve http_get clock).
Abbreviation run_pool := (Scanner.run_pool resolve http_get clock schedule).
Abbreviation load_subdomains_from_file := (Scanner.load_subdomains_from_file read_file).
Abbreviation scan_with_wordlist :=
  (Scanner.scan_with_wordlist resolve http_get read_file clock schedule).
Abbreviation common_scan := (Scanner.common_scan resolve http_get clock schedule).
Abbreviation run_scan := (Scanner.run_scan resolve http_get read_file clock schedule).
Abbreviation main := (Scanner.main resolve http_get read_file clock schedule).

(** A method misses, or hits with a finding, when it is run on a
    candidate with no result so far. *)
Abbreviation misses self subdomain method :=
  (fst (run_method self subdomain method None) = None).
Abbreviation calls_of self subdomain methods :=
  (flat_map (fun method => snd (run_method self subdomain method None)) methods).

(** *** The discovery methods *)

Lemma init_domain (domain_arg : string) (threads_arg : Z) (output_arg : option string) :
  domain (init domain_arg threads_arg output_arg) = lower (strip domain_arg).
Proof. cbn. symmetry. apply lower_strip. Qed.

Lemma dns_scan_eq (self : SubdomainScanner) (subdomain : string) :
  dns_scan self subdomain =
    (match resolve (full_name self subdomain) with
     | Some ips => Some (full_name self subdomain, ips, "DNS")
     | None => None
     end, [Resolve (full_name self subdomain)]).
Proof.
  unfold Scanner.dns_scan, bind, resolver_resolve. cbn [fst snd].
  destruct (resolve _); reflexivity.
Qed.

Lemma http_scan_eq (self : SubdomainScanner) (subdomain : string) :
  let target := full_name self subdomain in
  let https := "https://" +:+ target in
  let http := "http://" +:+ target in
  http_scan self subdomain =
    if responds https then (Some (target, [https], "HTTP"), [Get https])
    else if responds http then (Some (target, [http], "HTTP"), [Get https; Get http])
    else (None, [Get https; Get http]).
Proof.
  cbn zeta. unfold Scanner.http_scan, Scanner.responds.
  cbn [Scanner.http_try]. unfold bind, requests_get. cbn [fst snd].
  change ("https" +:+ "://" +:+ full_name self subdomain)
    with ("https://" +:+ full_name self subdomain).
  change ("http" +:+ "://" +:+ full_name self subdomain)
    with ("http://" +:+ full_name self subdomain).
  destruct (http_get ("https://" +:+ _)) as [s1|];
    [destruct (s1 <? 400); [reflexivity|] |];
    (destruct (http_get ("http://" +:+ _)) as [s2|];
     [destruct (s2 <? 400) |]); reflexivity.
Qed.

(** C8.  The HTTP method asks for [https://] and then [http://] on
    [label.base_domain]; the first scheme that answers with a status
    code below 400 gives the record, with method [HTTP] and the URL that
    answered, and the second scheme is asked only after the first
    failed; the method finds nothing exactly when both schemes fail, a
    request that raises counting as a failure. *)
Theorem http_scan_first_scheme (self : SubdomainScanner) (subdomain : string) :
  let target := subdomain +:+ "." +:+ domain self in
  let https := "https://" +:+ target in
  let http := "http://" +:+ target in
  http_scan self subdomain =
    (if responds https then (Some (target, [https], "HTTP"), [Get https])
     else if responds http then (Some (target, [http], "HTTP"), [Get https; Get http])
     else (None, [Get https; Get http]))
  /\ (fst (http_scan self subdomain) = None <->
      responds https = false /\ responds http = false)
  /\ (http_get https = None -> http_get http = None ->
      fst (http_scan self subdomain) = None).
Proof using http_get.
  cbn zeta. pose proof (http_scan_eq self subdomain) as E. cbn zeta in E.
  unfold full_name in E. rewrite E. split; [reflexivity|]. split.
  - destruct (responds ("https://" +:+ _)), (responds ("http://" +:+ _));
    cbn [fst];
    (split;
     [ intros H; try discriminate H; split; reflexivity
     | intros [H1 H2]; try discriminate H1; try discriminate H2; reflexivity ]).
  - intros H1 H2. unfold Scanner.responds. now rewrite H1, H2.
Qed.

(** C9.  The base domain is lowered and stripped when the scanner is
    built, so the name under test for a label is the label, a dot, and
    the lowered, trimmed domain; the label goes in as it is.  The DNS
    method resolves that name, the HTTP method requests that host, and
    a record found by the pipeline carries that name. *)
Theorem target_is_label_dot_normalised_domain (domain_arg : string)
    (threads_arg : Z) (output_arg : option string) (subdomain : string) :
  let self := init domain_arg threads_arg output_arg in
  let target := subdomain +:+ "." +:+ lower (strip domain_arg) in
  domain self = lower (strip domain_arg) /\
  full_name self subdomain = target /\
  snd (dns_scan self subdomain) = [Resolve target] /\
  Forall (fun c => c = Get ("https://" +:+ target) \/ c = Get ("http://" +:+ target))
         (snd (http_scan self subdomain)) /\
  (forall finding, fst (dns_scan self subdomain) = Some finding \/
                   fst (http_scan self subdomain) = Some finding ->
                   fst (fst finding) = target).
Proof.
  cbn zeta.
  set (self := init domain_arg threads_arg output_arg).
  assert (Hd : domain self = lower (strip domain_arg)) by apply init_domain.
  assert (Ht : full_name self subdomain = subdomain +:+ "." +:+ lower (strip domain_arg)).
  { unfold full_name. now rewrite Hd. }
  split; [exact Hd|]. split; [exact Ht|].
  pose proof (http_scan_eq self subdomain) as Eh. cbn zeta in Eh.
  rewrite dns_scan_eq, Eh, Ht. clear Eh. cbn [fst snd].
  split; [reflexivity|]. split.
  - destruct (responds _); [|destruct (responds _)]; cbn [snd];
      repeat (apply List.Forall_cons; [auto|]); apply List.Forall_nil.
  - intros finding [H|H].
    + destruct (resolve _); inversion H; reflexivity.
    + destruct (responds _); [|destruct (responds _)]; inversion H; reflexivity.
Qed.

(** *** The probe pipeline *)

Lemma run_method_unknown (self : SubdomainScanner) (subdomain method : string)
    (result : option Finding) :
  method <> "dns" -> method <> "http" -> method <> "cert" ->
  run_method self subdomain method result = (result, []).
Proof.
  intros H1 H2 H3. unfold Scanner.run_method.
  destruct (String.eqb_spec method "dns"); [contradiction|].
  destruct (String.eqb_spec method "http"); [contradiction|].
  destruct (String.eqb_spec method "cert"); [contradiction|].
  reflexivity.
Qed.

Lemma probe_loop_cons (self : SubdomainScanner) (subdomain method : string)
    (rest : list string) (result : option Finding) :
  probe_loop self subdomain (method :: rest) result =
    match fst (run_method self subdomain method result) with
    | Some f => (Some f, snd (run_method self subdomain method result))
    | None =>
        (fst (probe_loop self subdomain rest None),
         snd (run_method self subdomain method result)
           ++ snd (probe_loop self subdomain rest None))
    end.
Proof.
  cbn [Scanner.probe_loop]. unfold bind.
  destruct (fst (run_method self subdomain method result)) as [f|].
  - unfold ret. now rewrite app_nil_r.
  - now destruct (probe_loop self subdomain rest None).
Qed.

Lemma probe_loop_misses (self : SubdomainScanner) (subdomain : string)
    (pre rest : list string) :
  Forall (fun m => misses self subdomain m) pre ->
  probe_loop self subdomain (pre ++ rest) None =
    (fst (probe_loop self subdomain rest None),
     calls_of self subdomain pre ++ snd (probe_loop self subdomain rest None)).
Proof.
  induction 1 as [|m pre Hm _ IH].
  - cbn. now destruct (probe_loop self subdomain rest None).
  - cbn [app flat_map]. rewrite probe_loop_cons, Hm, IH. cbn [fst snd].
    now rewrite <- List.app_assoc.
Qed.

Lemma probe_none_iff (self : SubdomainScanner) (subdomain : string)
    (methods : list string) :
  fst (probe self subdomain methods) = None <->
  Forall (fun m => misses self subdomain m) methods.
Proof.
  unfold Scanner.probe. induction methods as [|m rest IH].
  - cbn. split; [constructor | reflexivity].
  - rewrite probe_loop_cons.
    destruct (fst (run_method self subdomain m None)) as [f|] eqn:E; cbn [fst].
    + split; [discriminate|]. intros H. inversion H; congruence.
    + rewrite IH. split; [now constructor | intros H; now inversion H].
Qed.

(** What [check_subdomain] returns is the name of the record of the probe. *)
Lemma check_subdomain_returns (self : SubdomainScanner) (subdomain : string)
    (methods : list string) :
  fst (check_subdomain self subdomain methods) =
    option_map (fun f : Finding => fst (fst f)) (fst (probe self subdomain methods)).
Proof.
  unfold Scanner.check_subdomain.
  destruct (probe self subdomain methods) as [[[[name ips] method]|] calls];
    cbn [fst option_map].
  - unfold Scanner.record_result. now destruct (write_all _ _ _ _ _).
  - unfold Scanner.record_result.
    now destruct (_ =? 0).
Qed.

(** C3.  The pipeline runs the methods in the order given and stops at
    the first that returns a record: when the methods before [method]
    all miss and [method] hits, the record is that of [method] and the
    calls made are those of the methods up to [method], none of a later
    one; the pipeline (and [check_subdomain]) returns nothing exactly
    when every method of the list misses; and with [dns] then [http], a
    name that resolves is found by DNS with the one resolver call and no
    HTTP request. *)
Theorem probe_stops_at_first_hit (self : SubdomainScanner) (subdomain : string) :
  (forall (pre post : list string) (method : string) (finding : Finding),
     Forall (fun m => misses self subdomain m) pre ->
     fst (run_method self subdomain method None) = Some finding ->
     probe self subdomain (pre ++ method :: post) =
       (Some finding, calls_of self subdomain (pre ++ [method]))) /\
  (forall methods : list string,
     (fst (probe self subdomain methods) = None <->
      Forall (fun m => misses self subdomain m) methods) /\
     (fst (check_subdomain self subdomain methods) = None <->
      Forall (fun m => misses self subdomain m) methods)) /\
  (forall ips : list string,
     resolve (full_name self subdomain) = Some ips ->
     probe self subdomain ["dns"; "http"] =
       (Some (full_name self subdomain, ips, "DNS"),
        [Resolve (full_name self subdomain)])).
Proof.
  split; [|split].
  - intros pre post method finding Hpre Hhit. unfold Scanner.probe.
    rewrite probe_loop_misses by exact Hpre.
    rewrite probe_loop_cons, Hhit. cbn [fst snd].
    rewrite flat_map_app. cbn [flat_map]. now rewrite app_nil_r.
  - intros methods. split; [apply probe_none_iff|].
    rewrite check_subdomain_returns, <- probe_none_iff.
    destruct (fst (probe self subdomain methods)); cbn; split; congruence.
  - intros ips Hres. unfold Scanner.probe. rewrite probe_loop_cons.
    change (run_method self subdomain "dns" None) with (dns_scan self subdomain).
    rewrite dns_scan_eq, Hres. reflexivity.
Qed.

Lemma probe_loop_skip (self : SubdomainScanner) (subdomain unknown : string)
    (pre post : list string) :
  unknown <> "dns" -> unknown <> "http" -> unknown <> "cert" ->
  probe_loop self subdomain (pre ++ unknown :: post) None =
  probe_loop self subdomain (pre ++ post) None.
Proof.
  intros H1 H2 H3. induction pre as [|m pre IH].
  - cbn [app]. rewrite probe_loop_cons, run_method_unknown by assumption.
    cbn [fst snd]. now destruct (probe_loop self subdomain post None).
  - cbn [app]. rewrite !probe_loop_cons, IH. reflexivity.
Qed.

(** C10.  A method name other than [dns], [http] and [cert] is passed
    over: its turn makes no call and leaves the result as it was, and the
    pipeline and [check_subdomain], which are defined on every list of
    names, give on a list with such a name what they give on the list
    without it. *)
Theorem unknown_method_is_skipped (self : SubdomainScanner)
    (subdomain unknown : string) (pre post : list string) :
  unknown <> "dns" -> unknown <> "http" -> unknown <> "cert" ->
  (forall result, run_method self subdomain unknown result = (result, [])) /\
  probe self subdomain (pre ++ unknown :: post) = probe self subdomain (pre ++ post) /\
  check_subdomain self subdomain (pre ++ unknown :: post) =
    check_subdomain self subdomain (pre ++ post).
Proof.
  intros H1 H2 H3. split; [|split].
  - intros result. now apply run_method_unknown.
  - now apply probe_loop_skip.
  - unfold Scanner.check_subdomain, Scanner.probe.
    now rewrite probe_loop_skip.
Qed.

(** *** The word list *)

Lemma kept_fold (lines : list string) (acc : gset string) (x : string) :
  x ∈ fold_left
        (fun (subdomains : gset string) (line : string) =>
           let subdomain := strip line in
           if truthy subdomain && negb (startswith subdomain "#")
           then subdomains ∪ {[subdomain]} else subdomains)
        lines acc
  <-> x ∈ acc \/ exists line, line ∈ lines /\ keeps line x.
Proof.
  revert acc. induction lines as [|l lines IH]; intros acc; cbn [fold_left].
  - split; [auto|]. intros [H|(line & H & _)]; [exact H|].
    now apply elem_of_nil in H.
  - rewrite IH. cbn zeta.
    destruct (truthy (strip l)) eqn:Ht;
      [destruct (startswith (strip l) "#") eqn:Hs|]; cbn [andb negb].
    + split.
      * intros [H|(line & H & K)]; [now left|].
        right. exists line. split; [now apply list_elem_of_further | exact K].
      * intros [H|(line & H & K)]; [now left|].
        apply elem_of_cons in H as [->|H].
        -- destruct K as (<- & _ & K). congruence.
        -- right. now exists line.
    + split.
      * intros [H|(line & H & K)].
        -- apply elem_of_union in H as [H|H]; [now left|].
           apply elem_of_singleton in H as ->. right. exists l.
           split; [apply list_elem_of_here|].
           split; [reflexivity|]. split; [now apply truthy_iff | exact Hs].
        -- right. exists line. split; [now apply list_elem_of_further | exact K].
      * intros [H|(line & H & K)].
        -- left. apply elem_of_union. now left.
        -- apply elem_of_cons in H as [->|H].
           ++ left. apply elem_of_union. right. apply elem_of_singleton.
              now destruct K as (<- & _).
           ++ right. now exists line.
    + split.
      * intros [H|(line & H & K)]; [now left|].
        right. exists line. split; [now apply list_elem_of_further | exact K].
      * intros [H|(line & H & K)]; [now left|].
        apply elem_of_cons in H as [->|H].
        -- destruct K as (<- & K & _). apply truthy_iff in K. congruence.
        -- right. now exists line.
Qed.

Lemma kept_labels_spec (text x : string) :
  x ∈ kept_labels text <-> exists line, line ∈ readlines text /\ keeps line x.
Proof.
  unfold kept_labels. rewrite kept_fold. split; [|auto].
  intros [H|H]; [|exact H]. now apply not_elem_of_empty in H.
Qed.

(** C6.  Loading a word list keeps, of each line, the text left when the
    white space around it is removed (that text is the line without a
    run of white space at each end, and has none at either end), drops
    the lines left empty and those left starting with [#], and returns
    every remaining label once.  The lines are those of the file: put end
    to end they are its text as text mode reads it, each ends with its
    only line feed, but for a last line that may have none, and none
    holds a carriage return.  When the file is missing or cannot be
    read the candidates are the empty list, an error line is printed, and
    the scan returns normally with the scanner otherwise untouched: no
    candidate checked, nothing found, no network call. *)
Theorem load_subdomains_from_file_spec (self : SubdomainScanner)
    (wordlist_file : string) (methods : list string) :
  (forall text : string,
     read_file wordlist_file = FileText text ->
     let loaded := fst (load_subdomains_from_file self wordlist_file) in
     NoDup loaded /\
     (forall x, x ∈ loaded <-> exists line, line ∈ readlines text /\ keeps line x) /\
     (forall line, exists pre post,
        line = pre +:+ strip line +:+ post /\
        all_space pre = true /\ all_space post = true /\
        lstrip (strip line) = strip line /\ rstrip (strip line) = strip line) /\
     fold_right String.append EmptyString (readlines text) = universal_newlines text /\
     Forall (fun l : string => universal_newlines l = l) (readlines text) /\
     (exists full last,
        readlines text = full ++ last /\
        Forall (fun l : string => l = first_line l +:+ nl) full /\
        (last = [] \/
         exists l, last = [l] /\ l <> EmptyString /\ first_line l = l))) /\
  (read_file wordlist_file = FileNotFound \/ read_file wordlist_file = ReadFailure ->
   exists error,
     (error = FileMissingMsg wordlist_file \/ error = ReadErrorMsg wordlist_file) /\
     load_subdomains_from_file self wordlist_file = ([], print self error) /\
     scan_with_wordlist self wordlist_file methods = (Completed, print self error) /\
     stdout (print self error) = stdout self ++ [error] /\
     checked_count (print self error) = checked_count self /\
     found_subdomains (print self error) = found_subdomains self /\
     net_calls (print self error) = net_calls self).
Proof.
  split.
  - intros text Hr. cbn zeta. unfold Scanner.load_subdomains_from_file.
    rewrite Hr. cbn [fst]. split; [apply NoDup_elements|]. split.
    + intros x. rewrite elem_of_elements. apply kept_labels_spec.
    + split; [intros line; apply strip_spec | apply readlines_spec].
  - intros [Hr|Hr].
    + exists (FileMissingMsg wordlist_file).
      unfold Scanner.scan_with_wordlist, Scanner.load_subdomains_from_file.
      rewrite Hr. repeat split; auto.
    + exists (ReadErrorMsg wordlist_file).
      unfold Scanner.scan_with_wordlist, Scanner.load_subdomains_from_file.
      rewrite Hr. repeat split; auto.
Qed.

(** *** The locked region and the pool *)

Lemma record_result_count (self : SubdomainScanner) (result : option Finding) :
  checked_count (snd (record_result self result)) = checked_count self + 1.
Proof.
  unfold Scanner.record_result. destruct result as [[[name ips] method]|].
  - now destruct (write_all _ _ _ _ _).
  - cbn [set_count checked_count]. now destruct (_ =? 0).
Qed.

Lemma record_result_found (self : SubdomainScanner) (result : option Finding) :
  found_subdomains (snd (record_result self result)) =
    match result with
    | Some finding => found_subdomains self ∪ {[fst (fst finding)]}
    | None => found_subdomains self
    end.
Proof.
  unfold Scanner.record_result. destruct result as [[[name ips] method]|].
  - now destruct (write_all _ _ _ _ _).
  - cbn [set_count checked_count]. now destruct (_ =? 0).
Qed.

Lemma record_result_threads (self : SubdomainScanner) (result : option Finding) :
  threads (snd (record_result self result)) = threads self /\
  domain (snd (record_result self result)) = domain self.
Proof.
  unfold Scanner.record_result. destruct result as [[[name ips] method]|].
  - now destruct (write_all _ _ _ _ _).
  - cbn [set_count checked_count]. now destruct (_ =? 0).
Qed.

Lemma check_subdomain_count (self : SubdomainScanner) (subdomain : string)
    (methods : list string) :
  checked_count (snd (check_subdomain self subdomain methods)) = checked_count self + 1.
Proof.
  unfold Scanner.check_subdomain.
  destruct (probe self subdomain methods) as [result calls].
  now rewrite record_result_count.
Qed.

Lemma check_subdomain_found (self : SubdomainScanner) (subdomain : string)
    (methods : list string) :
  found_subdomains (snd (check_subdomain self subdomain methods)) =
    match fst (probe self subdomain methods) with
    | Some finding => found_subdomains self ∪ {[fst (fst finding)]}
    | None => found_subdomains self
    end.
Proof.
  unfold Scanner.check_subdomain.
  destruct (probe self subdomain methods) as [result calls].
  now rewrite record_result_found.
Qed.

Lemma run_tasks_count (order : list string) (self : SubdomainScanner)
    (methods : list string) :
  checked_count (run_tasks self order methods) =
    checked_count self + Z.of_nat (length order).
Proof.
  unfold Scanner.run_tasks. revert self.
  induction order as [|c order IH]; intros self.
  - cbn. lia.
  - cbn [fold_left length]. rewrite IH, check_subdomain_count. lia.
Qed.

Lemma run_pool_completed (self s' : SubdomainScanner) (submitted methods : list string) :
  run_pool self submitted methods = (Completed, s') ->
  s' = run_tasks self (schedule submitted) methods.
Proof.
  unfold Scanner.run_pool. destruct (threads self <=? 0); congruence.
Qed.

(** C4.  Every task adds exactly one to [checked_count], found or not.
    When the pool runs every task it was given, in whatever order, a scan
    that completes leaves [checked_count] raised by the number of
    candidates submitted: the entries of the built-in list for
    [common_scan], the loaded labels for [scan_with_wordlist]. *)
Theorem checked_count_counts_candidates
    (Hpool : forall submitted, Permutation (schedule submitted) submitted)
    (self : SubdomainScanner) (methods : list string) :
  (forall subdomain,
     checked_count (snd (check_subdomain self subdomain methods)) =
       checked_count self + 1) /\
  (forall submitted s',
     run_pool self submitted methods = (Completed, s') ->
     checked_count s' = checked_count self + Z.of_nat (length submitted)) /\
  (forall s',
     common_scan self methods = (Completed, s') ->
     checked_count s' = checked_count self + Z.of_nat (length common_subdomains)) /\
  (forall wordlist_file s',
     scan_with_wordlist self wordlist_file methods = (Completed, s') ->
     checked_count s' =
       checked_count self +
       Z.of_nat (length (fst (load_subdomains_from_file self wordlist_file)))).
Proof.
  assert (Hrun : forall s submitted s',
            run_pool s submitted methods = (Completed, s') ->
            checked_count s' = checked_count s + Z.of_nat (length submitted)).
  { intros s submitted s' H. apply run_pool_completed in H as ->.
    rewrite run_tasks_count. now rewrite (Permutation_length (Hpool submitted)). }
  split; [|split; [|split]].
  - intros subdomain. apply check_subdomain_count.
  - intros submitted s'. apply Hrun.
  - intros s' H. unfold Scanner.common_scan in H. now apply Hrun in H.
  - intros wordlist_file s' H. unfold Scanner.scan_with_wordlist in H.
    destruct (load_subdomains_from_file self wordlist_file) as [loaded s1] eqn:El.
    assert (Hc : checked_count s1 = checked_count self).
    { unfold Scanner.load_subdomains_from_file in El.
      destruct (read_file wordlist_file); inversion El; reflexivity. }
    cbn [fst]. destruct loaded as [|x loaded].
    + inversion H; subst. cbn. lia.
    + apply Hrun in H. rewrite H. cbn [print checked_count]. now rewrite Hc.
Qed.

Lemma run_tasks_snoc (self : SubdomainScanner) (order : list string)
    (subdomain : string) (methods : list string) :
  run_tasks self (order ++ [subdomain]) methods =
    snd (check_subdomain (run_tasks self order methods) subdomain methods).
Proof. unfold Scanner.run_tasks. now rewrite fold_left_app. Qed.

(** C5.  The found collection is a set: adding a name it already holds
    leaves it as it was; each task adds to it the name of its record, if
    any, and nothing else; and after any sequence of completions its
    elements are pairwise distinct. *)
Theorem found_adds_each_domain_once (self : SubdomainScanner) :
  (forall name ips method,
     name ∈ found_subdomains self ->
     found_subdomains (snd (record_result self (Some (name, ips, method)))) =
       found_subdomains self) /\
  (forall subdomain methods,
     found_subdomains (snd (check_subdomain self subdomain methods)) =
       match fst (probe self subdomain methods) with
       | Some finding => found_subdomains self ∪ {[fst (fst finding)]}
       | None => found_subdomains self
       end) /\
  (forall order methods,
     NoDup (elements (found_subdomains (run_tasks self order methods))) /\
     found_subdomains self ⊆ found_subdomains (run_tasks self order methods)).
Proof using resolve http_get clock.
  split; [|split].
  - intros name ips method Hin. rewrite record_result_found. cbn [fst].
    rewrite (comm_L (∪)). apply subseteq_union_1_L.
    now apply singleton_subseteq_l.
  - intros subdomain methods. apply check_subdomain_found.
  - intros order methods. split; [apply NoDup_elements|].
    induction order as [|c order IH] using rev_ind.
    + reflexivity.
    + rewrite run_tasks_snoc, check_subdomain_found.
      destruct (fst (probe _ c methods)); [|exact IH].
      etransitivity; [exact IH | apply union_subseteq_l].
Qed.

(** *** The CSV report of a scan *)

Lemma rows_snoc (entries : list Entry) (e : Entry) :
  fold_right String.append EmptyString (map csv_line (entries ++ [e])) =
  fold_right String.append EmptyString (map csv_line entries) +:+ csv_line e.
Proof.
  induction entries as [|x entries IH].
  - cbn. now rewrite string_app_nil_r.
  - cbn [app map fold_right]. now rewrite IH, string_app_assoc.
Qed.

Lemma close_csv (h : OutputHandler) :
  sink h = CSVOutput ->
  close h = {| sink := CSVOutput; filename := filename h;
               file := file h; closed := true |}.
Proof. intros H. unfold close. rewrite H. cbn zeta. now rewrite H. Qed.

Lemma csv_report_print (s : SubdomainScanner) (path : string)
    (h : OutputHandler) (entries : list Entry) (m : Message) :
  csv_report s path h entries -> csv_report (print s m) path h entries.
Proof. exact (fun H => H). Qed.

Lemma csv_report_record (s : SubdomainScanner) (path : string)
    (h : OutputHandler) (entries : list Entry) (result : option Finding) :
  csv_report s path h entries ->
  exists h' entries', csv_report (snd (record_result s result)) path h' entries'.
Proof.
  intros (Hh & Hk & Hn & Hf & Hin). unfold Scanner.record_result.
  destruct result as [[[name ips] method]|].
  - cbn [print set_found set_count output_handlers clock_reads found_subdomains].
    rewrite Hh. cbn [Scanner.write_all snd].
    exists (write h name ips method (clock (clock_reads s))),
           (entries ++ [(name, ips, method, clock (clock_reads s))]).
    unfold csv_report. cbn [set_handlers output_handlers found_subdomains].
    split; [reflexivity|]. unfold write. rewrite Hk.
    cbn [file_write sink filename file]. repeat split; try assumption.
    + now rewrite Hf, rows_snoc, csv_row_line, !string_app_assoc.
    + apply Forall_app. split.
      * eapply Forall_impl; [exact Hin|]. intros e He. cbn beta in *.
        apply elem_of_union. now left.
      * apply List.Forall_cons; [|apply List.Forall_nil]. cbn [entry_domain].
        apply elem_of_union. right. now apply elem_of_singleton.
  - exists h, entries. destruct (_ =? 0); cbn [snd]; repeat split; assumption.
Qed.

Lemma csv_report_check (s : SubdomainScanner) (path : string)
    (h : OutputHandler) (entries : list Entry) (subdomain : string)
    (methods : list string) :
  csv_report s path h entries ->
  exists h' entries',
    csv_report (snd (check_subdomain s subdomain methods)) path h' entries'.
Proof.
  intros H. unfold Scanner.check_subdomain.
  destruct (probe s subdomain methods) as [result calls].
  apply (csv_report_record (log_calls s calls) path h entries). exact H.
Qed.

Lemma csv_report_tasks (order : list string) (s : SubdomainScanner)
    (path : string) (h : OutputHandler) (entries : list Entry)
    (methods : list string) :
  csv_report s path h entries ->
  exists h' entries', csv_report (run_tasks s order methods) path h' entries'.
Proof.
  revert s h entries. unfold Scanner.run_tasks.
  induction order as [|c order IH]; intros s h entries H.
  - now exists h, entries.
  - cbn [fold_left].
    destruct (csv_report_check s path h entries c methods H) as (h' & es' & H').
    exact (IH _ _ _ H').
Qed.

Lemma csv_report_pool (s : SubdomainScanner) (path : string)
    (h : OutputHandler) (entries : list Entry) (submitted methods : list string) :
  csv_report s path h entries ->
  exists h' entries',
    csv_report (snd (run_pool s submitted methods)) path h' entries'.
Proof.
  intros H. unfold Scanner.run_pool. destruct (threads s <=? 0); cbn [snd].
  - now exists h, entries.
  - now apply (csv_report_tasks _ s path h entries).
Qed.

Lemma csv_report_scan (s : SubdomainScanner) (path : string)
    (h : OutputHandler) (entries : list Entry) (args : Args) :
  csv_report s path h entries ->
  exists h' entries', csv_report (snd (run_scan s args)) path h' entries'.
Proof.
  intros H.
  assert (Hc : exists h' entries',
             csv_report (snd (common_scan s (arg_methods args))) path h' entries').
  { unfold Scanner.common_scan. apply (csv_report_pool _ path h entries).
    now apply csv_report_print. }
  unfold Scanner.run_scan. destruct (arg_wordlist args) as [w|]; [|exact Hc].
  destruct (truthy w); [|exact Hc].
  unfold Scanner.scan_with_wordlist.
  destruct (load_subdomains_from_file s w) as [loaded s1] eqn:El.
  assert (H1 : csv_report s1 path h entries).
  { unfold Scanner.load_subdomains_from_file in El.
    destruct (read_file w); inversion El; now apply csv_report_print. }
  destruct loaded as [|x loaded]; cbn [snd].
  - now exists h, entries.
  - apply (csv_report_pool _ path h entries). now do 2 apply csv_report_print.
Qed.

(** C7.  A scan whose output path ends in [.csv] leaves one file; its
    first line is exactly [domain,ips,method,discovery_time], and the
    rest is one row per record written, each row the four fields of the
    record enclosed in double quotes and separated by commas, with the
    addresses joined by semicolons; every row is the record of a name in
    the found set.  The same text comes out of the handler for any
    sequence of writes. *)
Theorem csv_report_format (args : Args) (path : string) :
  arg_output args = Some path -> endswith path ".csv" = true ->
  (exists (h : OutputHandler) (entries : list Entry),
     output_handlers (main args) = [h] /\ filename h = path /\ closed h = true /\
     file h = csv_header +:+ nl +:+
              fold_right String.append EmptyString (map csv_line entries) /\
     first_line (file h) = "domain,ips,method,discovery_time" /\
     Forall (fun e => entry_domain e ∈ found_subdomains (main args)) entries) /\
  (forall name start entries,
     sink_output CSVOutput name start entries =
       csv_header +:+ nl +:+
       fold_right String.append EmptyString (map csv_line entries)).
Proof.
  intros Hout Hcsv. split.
  - assert (H0 : csv_report (init (arg_domain args) (arg_threads args) (arg_output args))
                            path (open_handler CSVOutput path (clock 0)) []).
    { unfold Scanner.init, csv_report. rewrite Hout.
      rewrite (endswith_csv_not_json _ Hcsv), Hcsv.
      destruct path as [|c path]; [discriminate Hcsv|].
      cbn [truthy output_handlers found_subdomains].
      repeat split; try reflexivity. apply List.Forall_nil. }
    destruct (csv_report_scan _ path _ _ args H0) as (h & entries & H).
    unfold Scanner.main.
    destruct (run_scan _ args) as [[|] s]; cbn [snd] in H.
    + destruct H as (Hh & Hk & Hn & Hf & Hin).
      exists (close h), entries. rewrite (close_csv h Hk).
      unfold generate_report.
      cbn [set_handlers print output_handlers found_subdomains].
      rewrite Hh. cbn [close_all map filename closed file].
      rewrite (close_csv h Hk), Hf.
      repeat split; try assumption; apply first_line_csv.
    + destruct H as (Hh & Hk & Hn & Hf & Hin).
      exists (close h), entries. rewrite (close_csv h Hk).
      unfold generate_report.
      cbn [set_handlers print output_handlers found_subdomains].
      rewrite Hh. cbn [close_all map filename closed file].
      rewrite (close_csv h Hk), Hf.
      repeat split; try assumption; apply first_line_csv.
  - intros name start entries. unfold sink_output.
    destruct (csv_writes entries (open_handler CSVOutput name start) eq_refl)
      as [Hs Hf].
    unfold close. rewrite Hs. cbn [file]. rewrite Hf. cbn [open_handler].
    cbn. now rewrite string_app_assoc.
Qed.

End WithEnvironment.

(** *** The built-in list *)

(** C2.  The claim: with no word list the candidates are the built-in
    list without its duplicates, so that no label is handed to
    [check_subdomain] twice.  The list of the source has 90 entries for 83
    labels, and [common_scan] submits one task per entry: in a run of
    [main] with no word list all 90 entries are checked and the name under
    [shop], one of the seven repeated labels, is resolved twice. *)
Theorem common_scan_repeats_labels :
  length common_subdomains = 90%nat /\
  length (remove_dups common_subdomains) = 83%nat /\
  count_occ string_dec common_subdomains "shop" = 2%nat /\
  ~ NoDup common_subdomains /\
  let final := Scanner.main Example.resolve Example.http_get Example.read_file
                            Example.clock Example.schedule Example.common_args in
  checked_count final = 90 /\
  length (List.filter (fun c => match c with
                                | Resolve name => String.eqb name "shop.example.com"
                                | Get _ => false
                                end) (net_calls final)) = 2%nat.
Proof.
  split; [reflexivity|]. split; [vm_compute; reflexivity|].
  split; [vm_compute; reflexivity|]. split.
  - intros H. apply NoDup_ListNoDup in H.
    pose proof (proj1 (NoDup_count_occ string_dec _) H "shop") as K.
    vm_compute in K. lia.
  - cbn zeta. split; vm_compute; reflexivity.
Qed.

(** *** The theorems at work on the small environment *)

Lemma pool_order_is_permutation (submitted : list string) :
  Permutation (Example.schedule submitted) submitted.
Proof. apply Permutation_sym, Permutation_rev. Defined.

Lemma http_scan_first_scheme_witness :
  fst (Scanner.http_scan Example.http_get Example.scanner "mail") =
    Some ("mail.example.com", ["http://mail.example.com"], "HTTP") /\
  fst (Scanner.http_scan Example.http_get Example.scanner "nothing") = None.
Proof.
  split.
  - pose proof (http_scan_first_scheme Example.http_get Example.scanner "mail") as H.
    cbn zeta in H. destruct H as (H & _). rewrite H. reflexivity.
  - pose proof (http_scan_first_scheme Example.http_get Example.scanner "nothing") as H.
    cbn zeta in H. destruct H as (_ & _ & H). apply H; reflexivity.
Defined.

Lemma target_is_label_dot_normalised_domain_witness :
  full_name (Scanner.init Example.clock " Example.COM " 50 None) "WWW" = "WWW.example.com" /\
  forall finding,
    fst (Scanner.dns_scan Example.resolve Example.scanner "www") = Some finding ->
    fst (fst finding) = "www.example.com".
Proof.
  pose proof (target_is_label_dot_normalised_domain Example.resolve Example.http_get
                Example.clock " Example.COM " 50 None) as H.
  split.
  - exact (proj1 (proj2 (H "WWW"))).
  - intros finding Hf.
    exact (proj2 (proj2 (proj2 (proj2 (H "www")))) finding (or_introl Hf)).
Defined.

Lemma probe_stops_at_first_hit_witness :
  Scanner.probe Example.resolve Example.http_get Example.scanner "mail"
                (["cert"; "dns"] ++ "http" :: ["dns"]) =
    (Some ("mail.example.com", ["http://mail.example.com"], "HTTP"),
     [Resolve "mail.example.com"; Get "https://mail.example.com";
      Get "http://mail.example.com"]) /\
  Scanner.probe Example.resolve Example.http_get Example.scanner "www" ["dns"; "http"] =
    (Some ("www.example.com", ["93.184.216.34"], "DNS"), [Resolve "www.example.com"]).
Proof.
  split.
  - apply (proj1 (probe_stops_at_first_hit Example.resolve Example.http_get
                    Example.clock Example.scanner "mail")
             ["cert"; "dns"] ["dns"] "http").
    + repeat constructor.
    + reflexivity.
  - apply (proj2 (proj2 (probe_stops_at_first_hit Example.resolve Example.http_get
                           Example.clock Example.scanner "www"))).
    reflexivity.
Defined.

Lemma unknown_method_is_skipped_witness :
  Scanner.probe Example.resolve Example.http_get Example.scanner "www"
                (["cert"] ++ "whois" :: ["dns"]) =
  Scanner.probe Example.resolve Example.http_get Example.scanner "www"
                (["cert"] ++ ["dns"]).
Proof.
  apply (unknown_method_is_skipped Example.resolve Example.http_get Example.clock
           Example.scanner "www" "whois" ["cert"] ["dns"]); discriminate.
Defined.

Lemma checked_count_counts_candidates_witness :
  checked_count (snd (Scanner.common_scan Example.resolve Example.http_get
                        Example.clock Example.schedule Example.scanner ["dns"])) = 90 /\
  checked_count (snd (Scanner.scan_with_wordlist Example.resolve Example.http_get
                        Example.read_file Example.clock Example.schedule
                        Example.scanner "words.txt" ["dns"])) = 3.
Proof.
  pose proof (checked_count_counts_candidates Example.resolve Example.http_get
                Example.read_file Example.clock Example.schedule
                pool_order_is_permutation Example.scanner ["dns"]) as (_ & _ & Hc & Hw).
  split.
  - destruct (Scanner.common_scan _ _ _ _ _ _) as [o s] eqn:E.
    assert (Ho : o = Completed).
    { change o with (fst (o, s)). rewrite <- E. vm_compute. reflexivity. }
    subst o. cbn [snd]. rewrite (Hc s eq_refl). vm_compute. reflexivity.
  - destruct (Scanner.scan_with_wordlist _ _ _ _ _ _ _ _) as [o s] eqn:E.
    assert (Ho : o = Completed).
    { change o with (fst (o, s)). rewrite <- E. vm_compute. reflexivity. }
    subst o. cbn [snd]. rewrite (Hw "words.txt" s E). vm_compute. reflexivity.
Defined.

Lemma found_adds_each_domain_once_witness :
  let self := snd (Scanner.check_subdomain Example.resolve Example.http_get
                     Example.clock Example.scanner "www" ["dns"]) in
  found_subdomains
    (snd (Scanner.record_result Example.clock self
            (Some ("www.example.com", ["93.184.216.34"], "DNS")))) =
  found_subdomains self.
Proof.
  cbn zeta.
  apply (proj1 (found_adds_each_domain_once Example.resolve Example.http_get
                  Example.clock _)).
  apply elem_of_union. right. now apply elem_of_singleton.
Defined.

Lemma load_subdomains_from_file_spec_witness :
  let loaded := fst (Scanner.load_subdomains_from_file Example.read_file
                       Example.scanner "words.txt") in
  NoDup loaded /\
  (forall x, x ∈ loaded <-> x = "www" \/ x = "mail" \/ x = "nothing") /\
  length loaded = 3%nat /\
  readlines Example.words =
    ["www" +:+ nl; "# comment" +:+ nl; nl; "  mail  " +:+ nl; "www" +:+ nl; "nothing"] /\
  Scanner.scan_with_wordlist Example.resolve Example.http_get Example.read_file
    Example.clock Example.schedule Example.scanner "missing.txt" ["dns"] =
    (Completed, print Example.scanner (FileMissingMsg "missing.txt")).
Proof.
  cbn zeta.
  pose proof (proj1 (load_subdomains_from_file_spec Example.resolve
                       Example.http_get Example.read_file Example.clock
                       Example.schedule Example.scanner "words.txt" ["dns"])
                Example.words eq_refl) as H.
  cbn zeta in H. destruct H as (Hnodup & Hin & _).
  assert (E : readlines Example.words =
              ["www" +:+ nl; "# comment" +:+ nl; nl; "  mail  " +:+ nl;
               "www" +:+ nl; "nothing"]) by (vm_compute; reflexivity).
  split; [exact Hnodup|]. split; [|split; [vm_compute; reflexivity|split; [exact E|]]].
  - intros x. rewrite Hin, E. split.
    + intros (line & Hl & Hs & Hne & Hc).
      repeat (apply elem_of_cons in Hl as [-> | Hl]);
        try (now apply elem_of_nil in Hl); vm_compute in Hs; subst x;
        try (exfalso; apply Hne; reflexivity); try discriminate Hc; auto.
    + intros [-> | [-> | ->]].
      * exists ("www" +:+ nl). split; [apply list_elem_of_here|].
        split; [vm_compute; reflexivity|]. split; [discriminate | reflexivity].
      * exists ("  mail  " +:+ nl). split; [do 3 apply list_elem_of_further;
                                             apply list_elem_of_here|].
        split; [vm_compute; reflexivity|]. split; [discriminate | reflexivity].
      * exists "nothing". split; [do 5 apply list_elem_of_further;
                                   apply list_elem_of_here|].
        split; [vm_compute; reflexivity|]. split; [discriminate | reflexivity].
  - destruct (proj2 (load_subdomains_from_file_spec Example.resolve
                       Example.http_get Example.read_file Example.clock
                       Example.schedule Example.scanner "missing.txt" ["dns"])
                (or_introl eq_refl)) as (error & He & _ & Hs & _).
    rewrite Hs. destruct He as [-> | ->]; [reflexivity|].
    exfalso. revert Hs. vm_compute. intros Hs. discriminate Hs.
Defined.

Lemma csv_report_format_witness :
  exists h : OutputHandler,
    output_handlers (Scanner.main Example.resolve Example.http_get Example.read_file
                       Example.clock Example.schedule Example.csv_args) = [h] /\
    first_line (file h) = "domain,ips,method,discovery_time".
Proof.
  destruct (proj1 (csv_report_format Example.resolve Example.http_get
                     Example.read_file Example.clock Example.schedule
                     Example.csv_args "report.csv" eq_refl eq_refl))
    as (h & entries & Hh & _ & _ & _ & Hl & _).
  exists h. now split.
Defined.

End ScannerFacts.

(** * Further properties *)

(** ** What [json.dumps] writes can be read back *)

Module JsonCoding.

Import Py Datetime Json JsonText JsonRead Output PyFacts JsonFacts.

Lemma read_body_escape_char (c : ascii) (rest : string) :
  read_body (escape_char c +:+ rest) = prepend c (read_body rest).
Proof. destruct c as [[] [] [] [] [] [] [] []]; reflexivity. Qed.

Lemma read_body_escape (s rest : string) :
  read_body (escape s +:+ dq +:+ rest) = Some (s, rest).
Proof.
  induction s as [|c s IH]; [reflexivity|].
  cbn [escape]. now rewrite string_app_assoc, read_body_escape_char, IH.
Qed.

Lemma read_string_encode (s rest : string) :
  read_string (encode_string s +:+ rest) = Some (s, rest).
Proof.
  unfold encode_string. rewrite !string_app_assoc.
  change (read_string (dq +:+ escape s +:+ dq +:+ rest))
    with (read_body (escape s +:+ dq +:+ rest)).
  apply read_body_escape.
Qed.

(** The literal of a string is a code that ends itself: two texts that
    start with literals and are equal start with the same string and
    continue alike. *)
Lemma encode_string_cancel (s1 s2 r1 r2 : string) :
  encode_string s1 +:+ r1 = encode_string s2 +:+ r2 -> s1 = s2 /\ r1 = r2.
Proof.
  intros H. apply (f_equal read_string) in H.
  rewrite !read_string_encode in H. now inversion H.
Qed.

Lemma string_app_cancel_l (a x y : string) : a +:+ x = a +:+ y -> x = y.
Proof.
  induction a as [|c a IH]; [auto|].
  rewrite !string_app_cons. intros H. inversion H. auto.
Qed.

Lemma strings_text_cancel (l1 l2 : list string) (r1 r2 : string) :
  join ", " (map dumps (map JStr l1)) +:+ "]" +:+ r1 =
  join ", " (map dumps (map JStr l2)) +:+ "]" +:+ r2 ->
  l1 = l2 /\ r1 = r2.
Proof.
  revert l2. induction l1 as [|x1 l1 IH]; intros l2 H.
  - destruct l2 as [|x2 [|y2 l2]].
    + split; [reflexivity|]. cbn [map join] in H.
      rewrite !string_app_nil_l in H. now apply string_app_cancel_l in H.
    + cbn [map join dumps] in H. unfold encode_string in H.
      rewrite !string_app_assoc in H. discriminate H.
    + cbn [map join dumps] in H. unfold encode_string in H.
      rewrite !string_app_assoc in H. discriminate H.
  - destruct l1 as [|y1 l1]; destruct l2 as [|x2 [|y2 l2]].
    + cbn [map join dumps] in H. unfold encode_string in H.
      rewrite !string_app_assoc in H. discriminate H.
    + cbn [map join dumps] in H.
      apply encode_string_cancel in H as [-> H].
      split; [reflexivity|]. now apply string_app_cancel_l in H.
    + cbn [map join dumps] in H. rewrite !string_app_assoc in H.
      apply encode_string_cancel in H as [_ H]. discriminate H.
    + cbn [map join dumps] in H. unfold encode_string in H.
      rewrite !string_app_assoc in H. discriminate H.
    + cbn [map join dumps] in H. rewrite !string_app_assoc in H.
      apply encode_string_cancel in H as [_ H]. discriminate H.
    + change (join ", " (map dumps (map JStr (x1 :: y1 :: l1))))
        with (encode_string x1 +:+ ", " +:+
              join ", " (map dumps (map JStr (y1 :: l1)))) in H.
      change (join ", " (map dumps (map JStr (x2 :: y2 :: l2))))
        with (encode_string x2 +:+ ", " +:+
              join ", " (map dumps (map JStr (y2 :: l2)))) in H.
      rewrite !string_app_assoc in H.
      apply encode_string_cancel in H as [-> H].
      apply string_app_cancel_l in H.
      destruct (IH _ H) as [E ->]. split; [now rewrite E | reflexivity].
Qed.

(** X1.  The text of an entry determines the record.  Two entries written
    by the JSON handler are the same text only when they have the same
    domain, the same addresses in the same order, the same method and the
    same discovery time: nothing of a record is lost or merged by the
    escaping or by the joining of the addresses. *)
Theorem json_entry_injective (d1 d2 : string) (ips1 ips2 : list string)
    (m1 m2 : string) (t1 t2 : datetime) :
  dumps (json_entry d1 ips1 m1 t1) = dumps (json_entry d2 ips2 m2 t2) ->
  d1 = d2 /\ ips1 = ips2 /\ m1 = m2 /\ isoformat t1 = isoformat t2.
Proof.
  unfold json_entry. cbn [dumps map join fst snd]. intros H.
  rewrite !string_app_assoc in H.
  apply string_app_cancel_l in H.
  apply encode_string_cancel in H as [_ H].
  apply string_app_cancel_l in H.
  apply encode_string_cancel in H as [Hd H].
  apply string_app_cancel_l in H.
  apply encode_string_cancel in H as [_ H].
  apply string_app_cancel_l in H.
  apply string_app_cancel_l in H.
  apply strings_text_cancel in H as [Hi H].
  apply string_app_cancel_l in H.
  apply encode_string_cancel in H as [_ H].
  apply string_app_cancel_l in H.
  apply encode_string_cancel in H as [Hm H].
  apply string_app_cancel_l in H.
  apply encode_string_cancel in H as [_ H].
  apply string_app_cancel_l in H.
  apply encode_string_cancel in H as [Ht _].
  auto.
Qed.

(** *** Only printable ASCII is written *)

Lemma all_printable_app (a b : string) :
  all_printable (a +:+ b) = all_printable a && all_printable b.
Proof.
  induction a as [|c a IH]; [reflexivity|].
  rewrite string_app_cons. cbn [all_printable]. now rewrite IH, andb_assoc.
Qed.

Lemma escape_char_printable (c : ascii) : all_printable (escape_char c) = true.
Proof. destruct c as [[] [] [] [] [] [] [] []]; reflexivity. Qed.

Lemma escape_printable (s : string) : all_printable (escape s) = true.
Proof.
  induction s as [|c s IH]; [reflexivity|].
  cbn [escape]. now rewrite all_printable_app, escape_char_printable, IH.
Qed.

Lemma encode_string_printable (s : string) : all_printable (encode_string s) = true.
Proof.
  unfold encode_string. now rewrite !all_printable_app, escape_printable.
Qed.

Lemma uint_printable (d : Decimal.uint) :
  all_printable (NilEmpty.string_of_uint d) = true.
Proof. induction d; cbn [NilEmpty.string_of_uint all_printable]; auto. Qed.

Lemma zeros_printable (k : nat) : all_printable (zeros k) = true.
Proof. induction k; cbn [zeros all_printable]; auto. Qed.

Lemma pad_printable (w : nat) (n : N) : all_printable (pad w n) = true.
Proof.
  unfold pad, decimal. now rewrite all_printable_app, zeros_printable, uint_printable.
Qed.

Lemma isoformat_printable (t : datetime) : all_printable (isoformat t) = true.
Proof.
  unfold isoformat, date_part, time_part.
  destruct (microsecond t =? 0)%N;
    rewrite ?string_app_assoc, ?all_printable_app, ?pad_printable; reflexivity.
Qed.

Lemma strings_printable (l : list string) :
  all_printable (join ", " (map dumps (map JStr l))) = true.
Proof.
  induction l as [|x l IH]; [reflexivity|].
  destruct l as [|y l].
  - cbn [map join dumps]. apply encode_string_printable.
  - change (join ", " (map dumps (map JStr (x :: y :: l))))
      with (encode_string x +:+ ", " +:+ join ", " (map dumps (map JStr (y :: l)))).
    now rewrite !all_printable_app, encode_string_printable, IH.
Qed.

Lemma entry_printable (name : string) (ips : list string) (method : string)
    (now : datetime) :
  all_printable (dumps (json_entry name ips method now)) = true.
Proof.
  unfold json_entry. cbn [dumps map join fst snd].
  now rewrite !all_printable_app, !encode_string_printable, strings_printable.
Qed.

Lemma json_header_printable (now : datetime) :
  all_printable (json_header now) = true.
Proof.
  unfold json_header. now rewrite !all_printable_app, isoformat_printable.
Qed.

End JsonCoding.

(** ** The layout of what the handlers write *)

Module OutputLayout.

Import Py Datetime Json JsonText JsonRead Output Runs PyFacts JsonFacts
       OutputFacts JsonCoding.

Lemma join_snoc (sep x : string) (l : list string) :
  join sep (l ++ [x]) =
    match l with
    | [] => x
    | _ => join sep l +:+ sep +:+ x
    end.
Proof.
  induction l as [|a l IH]; [reflexivity|].
  destruct l as [|b l].
  - reflexivity.
  - change (join sep ((a :: b :: l) ++ [x]))
      with (a +:+ sep +:+ join sep ((b :: l) ++ [x])).
    rewrite IH.
    change (join sep (a :: b :: l)) with (a +:+ sep +:+ join sep (b :: l)).
    now rewrite !string_app_assoc.
Qed.

Lemma json_writes_layout (name : string) (start : datetime) (entries : list Entry) :
  let h := fold_left write_entry entries (open_handler (JSONOutput true) name start) in
  sink h = JSONOutput (match entries with [] => true | _ => false end) /\
  file h = json_header start +:+
           join "," (map (fun e : Entry =>
                            let '(d, i, m, t) := e in dumps (json_entry d i m t))
                         entries).
Proof.
  cbn zeta. induction entries as [|e entries [Hs Hf]] using rev_ind.
  - split; [reflexivity|]. cbn. now rewrite string_app_nil_r.
  - rewrite fold_left_app. cbn [fold_left].
    set (h := fold_left write_entry entries _) in *.
    destruct e as [[[d i] m] t]. unfold write_entry, write. rewrite Hs.
    rewrite map_app. cbn [map]. rewrite join_snoc.
    destruct entries as [|e0 entries]; cbn [negb set_sink file_write sink file app].
    + split; [reflexivity|]. rewrite Hf. cbn [map join].
      now rewrite string_app_nil_r.
    + split; [reflexivity|]. rewrite Hf.
      cbn [map]. now rewrite !string_app_assoc.
Qed.

Lemma json_sink_output_text (name : string) (start : datetime)
    (entries : list Entry) :
  sink_output (JSONOutput true) name start entries =
    json_header start +:+
    join "," (map (fun e : Entry =>
                     let '(d, i, m, t) := e in dumps (json_entry d i m t))
                  entries) +:+
    "]}".
Proof.
  destruct (json_writes_layout name start entries) as [Hs Hf].
  unfold sink_output, close. rewrite Hs. cbn [file file_write].
  now rewrite Hf, string_app_assoc.
Qed.

(** X2.  The text of a JSON sink is the header, the entries in the order
    they were written with one comma between two of them (none before
    the first, none after the last), and the closing text. *)
Theorem json_sink_output_layout (name : string) (start : datetime)
    (entries : list Entry) :
  sink_output (JSONOutput true) name start entries =
    json_header start +:+
    join "," (map (fun e : Entry =>
                     let '(d, i, m, t) := e in dumps (json_entry d i m t))
                  entries) +:+
    "]}".
Proof. apply json_sink_output_text. Qed.

Lemma entries_printable (entries : list Entry) :
  all_printable
    (join "," (map (fun e : Entry =>
                      let '(d, i, m, t) := e in dumps (json_entry d i m t))
                   entries)) = true.
Proof.
  induction entries as [|[[[d i] m] t] entries IH]; [reflexivity|].
  destruct entries as [|e entries].
  - cbn [map join]. apply entry_printable.
  - cbn [map] in *.
    match goal with
    | |- all_printable (join "," (?a :: ?b :: ?l)) = true =>
        change (join "," (a :: b :: l)) with (a +:+ "," +:+ join "," (b :: l))
    end.
    now rewrite !all_printable_app, entry_printable, IH.
Qed.

(** X3.  Whatever the names, addresses and methods written, the file of a
    JSON sink holds printable ASCII characters only: every other
    character of a record is written as an escape, and no line break
    occurs in the file. *)
Theorem json_sink_output_printable (name : string) (start : datetime)
    (entries : list Entry) :
  all_printable (sink_output (JSONOutput true) name start entries) = true.
Proof.
  rewrite json_sink_output_text.
  now rewrite !all_printable_app, json_header_printable, entries_printable.
Qed.

Lemma text_writes (entries : list Entry) (h : OutputHandler) :
  sink h = TextOutput ->
  sink (fold_left write_entry entries h) = TextOutput /\
  file (fold_left write_entry entries h) =
    file h +:+
    fold_right String.append EmptyString
               (map (fun e => entry_domain e +:+ nl) entries).
Proof.
  revert h. induction entries as [|e entries IH]; intros h Hs.
  - split; [exact Hs|]. cbn. now rewrite string_app_nil_r.
  - cbn [fold_left map fold_right].
    assert (Hw : sink (write_entry h e) = TextOutput /\
                 file (write_entry h e) = file h +:+ entry_domain e +:+ nl).
    { destruct e as [[[d i] m] t]. unfold write_entry, write.
      rewrite Hs. now cbn [file_write sink file entry_domain]. }
    destruct Hw as [Hs' Hf']. destruct (IH _ Hs') as [Hs'' Hf''].
    split; [exact Hs''|]. now rewrite Hf'', Hf', !string_app_assoc.
Qed.

(** X4.  The text sink writes its banner and then one line per record,
    holding the domain alone: the addresses and the method of a record
    are not written, and [close] adds nothing. *)
Theorem text_sink_output_layout (name : string) (start : datetime)
    (entries : list Entry) :
  sink_output TextOutput name start entries =
    text_banner start +:+
    fold_right String.append EmptyString
               (map (fun e => entry_domain e +:+ nl) entries).
Proof.
  unfold sink_output.
  destruct (text_writes entries (open_handler TextOutput name start) eq_refl)
    as [Hs Hf].
  unfold close. rewrite Hs. cbn [file]. rewrite Hf. reflexivity.
Qed.

End OutputLayout.

(** ** Runs of the scanner *)

Module ScannerRuns.

Import Py Datetime Json JsonText Output Scanner Runs PyFacts OutputFacts
       ScannerFacts OutputLayout.

Section WithEnvironment.

Variable resolve : string -> option (list string).
Variable http_get : string -> option Z.
Variable read_file : string -> FileRead.
Variable clock : nat -> datetime.
Variable schedule : list string -> list string.

Abbreviation init := (Scanner.init clock).
Abbreviation dns_scan := (Scanner.dns_scan resolve).
Abbreviation http_scan := (Scanner.http_scan http_get).
Abbreviation responds := (Scanner.responds http_get).
Abbreviation run_method := (Scanner.run_method resolve http_get).
Abbreviation probe_loop := (Scanner.probe_loop resolve http_get).
Abbreviation probe := (Scanner.probe resolve http_get).
Abbreviation write_all := (Scanner.write_all clock).
Abbreviation record_result := (Scanner.record_result clock).
Abbreviation check_subdomain := (Scanner.check_subdomain resolve http_get clock).
Abbreviation run_tasks := (Scanner.run_tasks resolve http_get clock).
Abbreviation run_pool := (Scanner.run_pool resolve http_get clock schedule).
Abbreviation load_subdomains_from_file := (Scanner.load_subdomains_from_file read_file).
Abbreviation scan_with_wordlist :=
  (Scanner.scan_with_wordlist resolve http_get read_file clock schedule).
Abbreviation common_scan := (Scanner.common_scan resolve http_get clock schedule).
Abbreviation run_scan := (Scanner.run_scan resolve http_get read_file clock schedule).
Abbreviation main := (Scanner.main resolve http_get read_file clock schedule).

(** The calls a probe of the name [t] may make. *)
Abbreviation about t c :=
  (c = Resolve t \/ c = Get ("https://" +:+ t) \/ c = Get ("http://" +:+ t)).

(** *** Invariants of a scan *)

(** A property of the scanner that the completion of a task keeps, and
    that printing a line other than a progress line keeps, holds after
    the pool ran, after a scan, and after [main]. *)
Lemma run_tasks_invariant (P : SubdomainScanner -> Prop) (methods : list string) :
  (forall s subdomain, P s -> P (snd (check_subdomain s subdomain methods))) ->
  forall order s, P s -> P (run_tasks s order methods).
Proof.
  intros Hstep order. unfold Scanner.run_tasks.
  induction order as [|c order IH]; intros s Hs; [exact Hs|].
  cbn [fold_left]. apply IH, Hstep, Hs.
Qed.

Lemma run_scan_invariant (P : SubdomainScanner -> Prop) (args : Args) :
  (forall s m, (forall c f, m <> ProgressMsg c f) -> P s -> P (print s m)) ->
  (forall s subdomain, P s -> P (snd (check_subdomain s subdomain (arg_methods args)))) ->
  forall s, P s -> P (snd (run_scan s args)).
Proof.
  intros Hprint Hstep s Hs.
  assert (Hpool : forall s0 submitted,
             P s0 -> P (snd (run_pool s0 submitted (arg_methods args)))).
  { intros s0 submitted H0. unfold Scanner.run_pool.
    destruct (threads s0 <=? 0); cbn [snd]; [exact H0|].
    now apply run_tasks_invariant. }
  assert (Hc : P (snd (common_scan s (arg_methods args)))).
  { unfold Scanner.common_scan. apply Hpool, Hprint; [discriminate | exact Hs]. }
  unfold Scanner.run_scan. destruct (arg_wordlist args) as [w|]; [|exact Hc].
  destruct (truthy w); [|exact Hc].
  unfold Scanner.scan_with_wordlist.
  destruct (load_subdomains_from_file s w) as [loaded s1] eqn:El.
  assert (H1 : P s1).
  { unfold Scanner.load_subdomains_from_file in El.
    destruct (read_file w); inversion El; (apply Hprint; [discriminate | exact Hs]). }
  destruct loaded as [|x loaded]; cbn [snd]; [exact H1|].
  apply Hpool. do 2 (apply Hprint; [discriminate|]). exact H1.
Qed.

Lemma main_invariant (P : SubdomainScanner -> Prop) (args : Args) :
  (forall s m, (forall c f, m <> ProgressMsg c f) -> P s -> P (print s m)) ->
  (forall s subdomain, P s -> P (snd (check_subdomain s subdomain (arg_methods args)))) ->
  (forall s, P s -> P (set_handlers s (close_all (output_handlers s)) (clock_reads s))) ->
  P (init (arg_domain args) (arg_threads args) (arg_output args)) ->
  P (main args).
Proof.
  intros Hprint Hstep Hclose H0. unfold Scanner.main.
  pose proof (run_scan_invariant P args Hprint Hstep _ H0) as H.
  destruct (run_scan _ args) as [[|] s]; cbn [snd] in H; unfold generate_report.
  - apply (Hclose (print s _)), Hprint; [discriminate | exact H].
  - apply (Hclose (print (print s ScanErrorMsg) _)).
    do 2 (apply Hprint; [discriminate|]). exact H.
Qed.

(** *** What a task leaves unchanged *)

Lemma record_result_calls (s : SubdomainScanner) (result : option Finding) :
  net_calls (snd (record_result s result)) = net_calls s.
Proof.
  unfold Scanner.record_result. destruct result as [[[name ips] method]|].
  - now destruct (write_all _ _ _ _ _).
  - cbn [set_count checked_count]. now destruct (_ =? 0).
Qed.

Lemma check_subdomain_calls (s : SubdomainScanner) (subdomain : string)
    (methods : list string) :
  net_calls (snd (check_subdomain s subdomain methods)) =
    net_calls s ++ snd (probe s subdomain methods).
Proof.
  unfold Scanner.check_subdomain.
  destruct (probe s subdomain methods) as [result calls].
  now rewrite record_result_calls.
Qed.

Lemma check_subdomain_domain (s : SubdomainScanner) (subdomain : string)
    (methods : list string) :
  domain (snd (check_subdomain s subdomain methods)) = domain s /\
  threads (snd (check_subdomain s subdomain methods)) = threads s.
Proof.
  unfold Scanner.check_subdomain.
  destruct (probe s subdomain methods) as [result calls].
  destruct (record_result_threads clock (log_calls s calls) result) as [Ht Hd].
  now rewrite Ht, Hd.
Qed.

(** A probe reads the scanner for its base domain only. *)
Lemma probe_same_domain (s1 s2 : SubdomainScanner) (subdomain : string)
    (methods : list string) :
  domain s1 = domain s2 ->
  probe s1 subdomain methods = probe s2 subdomain methods.
Proof.
  intros Hd.
  assert (Hf : full_name s1 subdomain = full_name s2 subdomain).
  { unfold full_name. now rewrite Hd. }
  assert (Hm : forall m r, run_method s1 subdomain m r = run_method s2 subdomain m r).
  { intros m r. unfold Scanner.run_method, Scanner.dns_scan, Scanner.http_scan,
      certificate_scan. now rewrite Hf. }
  unfold Scanner.probe. generalize (@None Finding).
  induction methods as [|m rest IH]; intros r; [reflexivity|].
  cbn [Scanner.probe_loop]. rewrite Hm. unfold bind.
  destruct (fst (run_method s2 subdomain m r)); [reflexivity|]. now rewrite IH.
Qed.

(** *** The network calls of a probe *)

Lemma run_method_calls (self : SubdomainScanner) (subdomain method : string)
    (result : option Finding) :
  Forall (fun c => about (full_name self subdomain) c)
         (snd (run_method self subdomain method result)) /\
  (length (snd (run_method self subdomain method result)) <= 2)%nat.
Proof.
  unfold Scanner.run_method.
  destruct (String.eqb method "dns").
  { rewrite dns_scan_eq. cbn [snd length]. split; [|lia].
    apply List.Forall_cons; [auto | apply List.Forall_nil]. }
  destruct (String.eqb method "http").
  { pose proof (http_scan_eq http_get self subdomain) as E. cbn zeta in E.
    rewrite E. clear E.
    destruct (responds _); [|destruct (responds _)]; cbn [snd length];
      (split; [repeat (apply List.Forall_cons; [auto|]); apply List.Forall_nil | lia]). }
  destruct (String.eqb method "cert"); unfold certificate_scan, ret;
    cbn [snd length]; (split; [apply List.Forall_nil | lia]).
Qed.

Lemma probe_loop_calls (self : SubdomainScanner) (subdomain : string)
    (methods : list string) (result : option Finding) :
  Forall (fun c => about (full_name self subdomain) c)
         (snd (probe_loop self subdomain methods result)) /\
  (length (snd (probe_loop self subdomain methods result)) <= 2 * length methods)%nat.
Proof.
  revert result. induction methods as [|m rest IH]; intros result.
  - cbn. split; [apply List.Forall_nil | lia].
  - rewrite probe_loop_cons.
    destruct (run_method_calls self subdomain m result) as [Hm Lm].
    destruct (IH None) as [Hr Lr].
    destruct (fst (run_method self subdomain m result)); cbn [snd length].
    + split; [exact Hm | lia].
    + split; [now apply Forall_app | rewrite length_app; lia].
Qed.

(** X5.  Whatever the methods asked for, probing a label makes network
    calls about one name only, the label followed by a dot and the base
    domain (resolving it, or requesting it over [https] or [http]), and at
    most two calls per method of the list. *)
Theorem probe_calls_own_target (self : SubdomainScanner) (subdomain : string)
    (methods : list string) :
  let target := subdomain +:+ "." +:+ domain self in
  Forall (fun c => about target c) (snd (probe self subdomain methods)) /\
  (length (snd (probe self subdomain methods)) <= 2 * length methods)%nat.
Proof. apply probe_loop_calls. Qed.

(** *** The found set of a run *)

Lemma run_method_name (self : SubdomainScanner) (subdomain method : string)
    (finding : Finding) :
  fst (run_method self subdomain method None) = Some finding ->
  fst (fst finding) = full_name self subdomain.
Proof.
  unfold Scanner.run_method.
  destruct (String.eqb method "dns").
  { rewrite dns_scan_eq. cbn [fst].
    destruct (resolve _); intros H; inversion H; reflexivity. }
  destruct (String.eqb method "http").
  { pose proof (http_scan_eq http_get self subdomain) as E. cbn zeta in E.
    rewrite E. clear E.
    destruct (responds _); [|destruct (responds _)]; cbn [fst];
      intros H; inversion H; reflexivity. }
  destruct (String.eqb method "cert"); intros H; discriminate H.
Qed.

Lemma probe_name (self : SubdomainScanner) (subdomain : string)
    (methods : list string) (finding : Finding) :
  fst (probe self subdomain methods) = Some finding ->
  fst (fst finding) = full_name self subdomain.
Proof.
  unfold Scanner.probe. induction methods as [|m rest IH].
  - intros H. discriminate H.
  - rewrite probe_loop_cons.
    destruct (fst (run_method self subdomain m None)) as [f|] eqn:E; cbn [fst].
    + intros H. inversion H; subst. now apply run_method_name in E.
    + exact IH.
Qed.

Lemma run_tasks_cons (s : SubdomainScanner) (c : string) (order methods : list string) :
  run_tasks s (c :: order) methods =
    run_tasks (snd (check_subdomain s c methods)) order methods.
Proof. reflexivity. Qed.

Lemma run_tasks_found (self : SubdomainScanner) (methods order : list string) :
  forall s, domain s = domain self ->
    found_subdomains (run_tasks s order methods) =
      found_subdomains s ∪
      list_to_set (omap (fun sub => option_map (fun f : Finding => fst (fst f))
                                      (fst (probe self sub methods))) order).
Proof.
  induction order as [|c order IH]; intros s Hd.
  - cbn. now rewrite (right_id_L ∅ (∪)).
  - rewrite run_tasks_cons.
    destruct (check_subdomain_domain s c methods) as [Hd' _].
    rewrite IH by congruence. rewrite check_subdomain_found.
    rewrite (probe_same_domain s self c methods Hd). cbn [omap list_omap].
    destruct (fst (probe self c methods)) as [f|]; cbn [option_map].
    + rewrite list_to_set_cons. now rewrite (assoc_L (∪)).
    + reflexivity.
Qed.

(** X7.  After the pool ran, the found set is what it was before together
    with the names of the submitted labels that some method confirmed,
    and nothing else; hence it is the same for every order in which the
    pool completes the same tasks. *)
Theorem found_after_run (self : SubdomainScanner) (methods order : list string) :
  (forall x : string,
     x ∈ found_subdomains (run_tasks self order methods) <->
     x ∈ found_subdomains self \/
     exists label, label ∈ order /\ x = label +:+ "." +:+ domain self /\
                   fst (probe self label methods) <> None) /\
  (forall order', Permutation order order' ->
     found_subdomains (run_tasks self order' methods) =
       found_subdomains (run_tasks self order methods)).
Proof.
  assert (Hchar : forall o x,
            x ∈ found_subdomains (run_tasks self o methods) <->
            x ∈ found_subdomains self \/
            exists label, label ∈ o /\ x = label +:+ "." +:+ domain self /\
                          fst (probe self label methods) <> None).
  { intros o x. rewrite (run_tasks_found self methods o self eq_refl).
    rewrite elem_of_union, elem_of_list_to_set, list_elem_of_omap.
    split; (intros [H|H]; [now left | right]).
    - destruct H as (label & Hin & Hp). exists label. split; [exact Hin|].
      destruct (fst (probe self label methods)) as [f|] eqn:E; [|discriminate Hp].
      cbn in Hp. inversion Hp; subst. split; [|discriminate].
      now apply probe_name in E.
    - destruct H as (label & Hin & -> & Hp). exists label. split; [exact Hin|].
      destruct (fst (probe self label methods)) as [f|] eqn:E; [|congruence].
      cbn. f_equal. now apply probe_name in E. }
  split; [apply Hchar|].
  intros order' Hperm. apply set_eq. intros x. rewrite !Hchar.
  split; (intros [H|(label & Hin & Hx)]; [now left | right; exists label]).
  - split; [|exact Hx]. now rewrite Hperm.
  - split; [|exact Hx]. now rewrite <- Hperm.
Qed.

(** *** What the handler receives *)

Lemma record_result_handlers (s : SubdomainScanner) (result : option Finding) :
  (output_handlers (snd (record_result s result)),
   clock_reads (snd (record_result s result))) =
    match result with
    | Some (name, ips, method) =>
        write_all (output_handlers s) name ips method (clock_reads s)
    | None => (output_handlers s, clock_reads s)
    end.
Proof.
  unfold Scanner.record_result. destruct result as [[[name ips] method]|].
  - cbn [print set_found set_count output_handlers clock_reads].
    now destruct (write_all _ _ _ _ _).
  - cbn [set_count checked_count]. now destruct (_ =? 0).
Qed.

Lemma check_subdomain_handlers (s : SubdomainScanner) (subdomain : string)
    (methods : list string) :
  (output_handlers (snd (check_subdomain s subdomain methods)),
   clock_reads (snd (check_subdomain s subdomain methods))) =
    match fst (probe s subdomain methods) with
    | Some (name, ips, method) =>
        write_all (output_handlers s) name ips method (clock_reads s)
    | None => (output_handlers s, clock_reads s)
    end.
Proof.
  unfold Scanner.check_subdomain.
  destruct (probe s subdomain methods) as [result calls].
  now rewrite record_result_handlers.
Qed.

Lemma run_tasks_writes (self : SubdomainScanner) (methods order : list string) :
  forall (s : SubdomainScanner) (h : OutputHandler),
    domain s = domain self -> output_handlers s = [h] ->
    let hits := omap (fun sub => fst (probe self sub methods)) order in
    output_handlers (run_tasks s order methods) =
      [fold_left write_entry
                 (imap (fun i (f : Finding) => (f, clock (clock_reads s + i)%nat)) hits)
                 h] /\
    clock_reads (run_tasks s order methods) = (clock_reads s + length hits)%nat.
Proof.
  cbn zeta. induction order as [|c order IH]; intros s h Hd Hh.
  - cbn. split; [exact Hh | lia].
  - rewrite run_tasks_cons.
    destruct (check_subdomain_domain s c methods) as [Hd' _].
    pose proof (check_subdomain_handlers s c methods) as Hw.
    rewrite (probe_same_domain s self c methods Hd) in Hw.
    cbn [omap list_omap].
    destruct (fst (probe self c methods)) as [[[name ips] method]|].
    + rewrite Hh in Hw. cbn [Scanner.write_all] in Hw. inversion Hw as [[Hh' Hr']].
      destruct (IH _ _ (eq_trans Hd' Hd) Hh') as [IH1 IH2].
      rewrite IH1, IH2, Hr'. rewrite imap_cons. cbn [fold_left length].
      split; [|lia]. rewrite Nat.add_0_r. do 2 f_equal.
      apply imap_ext. intros i f _. cbn. do 2 f_equal. lia.
    + inversion Hw as [[Hh' Hr']].
      destruct (IH _ _ (eq_trans Hd' Hd) (eq_trans Hh' Hh)) as [IH1 IH2].
      rewrite IH1, IH2, Hr'. split; reflexivity.
Qed.

(** X8.  A scanner with one output handler writes to it once for each
    submitted label that is confirmed, in the order in which the tasks
    complete, the record of the probe together with the time read for
    that write; labels that nothing confirms write nothing. *)
Theorem handler_receives_each_finding (self : SubdomainScanner)
    (h : OutputHandler) (methods order : list string) :
  output_handlers self = [h] ->
  let hits := omap (fun label => fst (probe self label methods)) order in
  output_handlers (run_tasks self order methods) =
    [fold_left write_entry
               (imap (fun i (f : Finding) => (f, clock (clock_reads self + i)%nat)) hits)
               h] /\
  clock_reads (run_tasks self order methods) = (clock_reads self + length hits)%nat.
Proof. intros Hh. now apply run_tasks_writes. Qed.

(** *** What is printed *)

Lemma record_result_stdout (s : SubdomainScanner) (result : option Finding) :
  stdout (snd (record_result s result)) =
    stdout s ++
    match result with
    | Some (name, _, method) => [FoundMsg name method]
    | None =>
        if (checked_count s + 1) mod 100 =? 0
        then [ProgressMsg (checked_count s + 1) (size (found_subdomains s))]
        else []
    end.
Proof.
  unfold Scanner.record_result. destruct result as [[[name ips] method]|].
  - cbn [print set_found set_count output_handlers clock_reads].
    now destruct (write_all _ _ _ _ _).
  - cbn [set_count checked_count found_subdomains].
    destruct (_ =? 0); cbn [snd print stdout]; [reflexivity|].
    now rewrite List.app_nil_r.
Qed.

Lemma check_subdomain_stdout (s : SubdomainScanner) (subdomain : string)
    (methods : list string) :
  stdout (snd (check_subdomain s subdomain methods)) =
    stdout s ++
    match fst (probe s subdomain methods) with
    | Some (name, _, method) => [FoundMsg name method]
    | None =>
        if (checked_count s + 1) mod 100 =? 0
        then [ProgressMsg (checked_count s + 1) (size (found_subdomains s))]
        else []
    end.
Proof.
  unfold Scanner.check_subdomain.
  destruct (probe s subdomain methods) as [result calls].
  now rewrite record_result_stdout.
Qed.

(** X9.  The completion of a task prints one line when the label is
    confirmed, naming the domain and the method, and otherwise prints a
    progress line exactly when the count of checks reaches a multiple of
    one hundred, with that count and the number of names found so far;
    a confirmed label never prints a progress line.  In a run of [main]
    every progress line therefore carries a positive multiple of one
    hundred. *)
Theorem notifications (self : SubdomainScanner) (subdomain : string)
    (methods : list string) (args : Args) :
  stdout (snd (check_subdomain self subdomain methods)) =
    stdout self ++
    match fst (probe self subdomain methods) with
    | Some (name, _, method) => [FoundMsg name method]
    | None =>
        if (checked_count self + 1) mod 100 =? 0
        then [ProgressMsg (checked_count self + 1) (size (found_subdomains self))]
        else []
    end /\
  Forall progress_at_hundreds (stdout (main args)).
Proof.
  split; [apply check_subdomain_stdout|].
  apply (main_invariant
           (fun s => 0 <= checked_count s /\ Forall progress_at_hundreds (stdout s))).
  - intros s m Hm [Hc Hs]. split; [exact Hc|]. cbn [print stdout].
    apply Forall_app. split; [exact Hs|].
    apply List.Forall_cons; [|apply List.Forall_nil].
    destruct m; cbn; auto. now destruct (Hm checked found).
  - intros s sub [Hc Hs]. split.
    + rewrite check_subdomain_count. lia.
    + rewrite check_subdomain_stdout. apply Forall_app. split; [exact Hs|].
      destruct (fst (probe s sub (arg_methods args))) as [[[name ips] method]|].
      * apply List.Forall_cons; [exact I | apply List.Forall_nil].
      * destruct ((checked_count s + 1) mod 100 =? 0) eqn:E; [|apply List.Forall_nil].
        apply List.Forall_cons; [|apply List.Forall_nil]. cbn.
        apply Z.eqb_eq in E. split; [exact E | lia].
  - intros s H. exact H.
  - split; [cbn; lia | apply List.Forall_nil].
Qed.

(** The report is the last line printed: the count of checks and the
    names found, each once, in increasing order. *)
Lemma generate_report_prints (s : SubdomainScanner) :
  exists names : list string,
    stdout (generate_report s) = stdout s ++ [ReportMsg (checked_count s) names] /\
    checked_count (generate_report s) = checked_count s /\
    found_subdomains (generate_report s) = found_subdomains s /\
    StronglySorted String.le names /\
    NoDup names /\
    forall x, x ∈ names <-> x ∈ found_subdomains s.
Proof.
  exists (merge_sort String.le (elements (found_subdomains s))).
  split; [reflexivity|]. split; [reflexivity|]. split; [reflexivity|].
  split; [apply StronglySorted_merge_sort; apply _|].
  split.
  - rewrite merge_sort_Permutation. apply NoDup_elements.
  - intros x. rewrite merge_sort_Permutation. apply elem_of_elements.
Qed.

(** *** The output file of a run *)

Lemma same_format_trans (a b c : Sink) :
  same_format a b = true -> same_format b c = true -> same_format a c = true.
Proof. destruct a, b, c; intros; try discriminate; reflexivity. Qed.

Lemma open_handler_shape (k : Sink) (name : string) (now : datetime) :
  filename (open_handler k name now) = name /\
  same_format (sink (open_handler k name now)) k = true.
Proof. destruct k; split; reflexivity. Qed.

Lemma close_shape (h : OutputHandler) :
  filename (close h) = filename h /\ closed (close h) = true /\
  same_format (sink (close h)) (sink h) = true.
Proof. unfold close. destruct (sink h) eqn:E; cbn; rewrite ?E; auto. Qed.

Lemma write_all_shape (hs : list OutputHandler) (name : string)
    (ips : list string) (method : string) (reads : nat) :
  Forall2 (fun h' h => filename h' = filename h /\
                       same_format (sink h') (sink h) = true /\
                       closed h' = closed h)
          (fst (write_all hs name ips method reads)) hs.
Proof.
  revert reads. induction hs as [|h hs IH]; intros reads; cbn [Scanner.write_all].
  - constructor.
  - specialize (IH (S reads)).
    destruct (write_all hs name ips method (S reads)) as [hs' reads'].
    cbn [fst] in *. constructor; [|exact IH].
    unfold write. destruct (sink h) as [|b|] eqn:E;
      [|destruct b|]; cbn; rewrite ?E; auto.
Qed.

(** Once the scanner is constructed, an output path gives one handler,
    which the scan keeps on its path and in its format and which the
    report closes; no path, or an empty one, gives none. *)
Lemma main_handlers_shape (args : Args) :
  (forall path, arg_output args = Some path -> path <> EmptyString ->
     exists h, output_handlers (main args) = [h] /\ filename h = path /\
               closed h = true /\
               same_format (sink h) (format_of_path path) = true) /\
  (arg_output args = None \/ arg_output args = Some EmptyString ->
   output_handlers (main args) = []).
Proof.
  set (s0 := init (arg_domain args) (arg_threads args) (arg_output args)).
  assert (Hinv : Forall2 (fun h' h => filename h' = filename h /\
                                      same_format (sink h') (sink h) = true /\
                                      closed h' = closed h)
                         (output_handlers (snd (run_scan s0 args)))
                         (output_handlers s0)).
  { apply (run_scan_invariant
             (fun s => Forall2 (fun h' h => filename h' = filename h /\
                                            same_format (sink h') (sink h) = true /\
                                            closed h' = closed h)
                               (output_handlers s) (output_handlers s0))).
    - intros s m _ H. exact H.
    - intros s sub H.
      pose proof (check_subdomain_handlers s sub (arg_methods args)) as Hw.
      destruct (fst (probe s sub (arg_methods args))) as [[[name ips] method]|].
      + apply (f_equal fst) in Hw. cbn [fst] in Hw. rewrite Hw.
        eapply Forall2_trans; [| apply write_all_shape | exact H].
        intros a b c (F1 & S1 & C1) (F2 & S2 & C2).
        repeat split; try congruence. now apply (same_format_trans _ (sink b)).
      + apply (f_equal fst) in Hw. cbn [fst] in Hw. now rewrite Hw.
    - clear. induction (output_handlers s0) as [|h hs IH]; constructor; [|exact IH].
      repeat split; try reflexivity. now destruct (sink h). }
  assert (Hmain : output_handlers (main args) =
                  close_all (output_handlers (snd (run_scan s0 args)))).
  { unfold Scanner.main. fold s0.
    destruct (run_scan s0 args) as [[|] s]; reflexivity. }
  rewrite Hmain. split.
  - intros path Hp Hne.
    assert (H0 : output_handlers s0 = [open_handler (format_of_path path) path (clock 0)]).
    { unfold s0, Scanner.init. rewrite Hp.
      destruct path as [|c path]; [contradiction|]. cbn [truthy output_handlers].
      unfold format_of_path.
      destruct (endswith _ ".json"); [reflexivity|].
      destruct (endswith _ ".csv"); reflexivity. }
    rewrite H0 in Hinv. clear H0.
    generalize dependent (format_of_path path). intros k Hinv.
    inversion Hinv as [|h ? ? ? (Hf & Hs & Hc) Hnil E1 E2]; subst.
    inversion Hnil; subst. exists (close h). cbn [close_all map].
    destruct (open_handler_shape k path (clock 0)) as [Ho1 Ho2].
    destruct (close_shape h) as (Hc1 & Hc2 & Hc3).
    split; [reflexivity|]. split; [congruence|]. split; [exact Hc2|].
    eapply same_format_trans; [exact Hc3|].
    eapply same_format_trans; [exact Hs | exact Ho2].
  - intros Hnone.
    assert (H0 : output_handlers s0 = []).
    { unfold s0, Scanner.init. destruct Hnone as [-> | ->]; reflexivity. }
    rewrite H0 in Hinv. inversion Hinv. reflexivity.
Qed.

(** X12.  The file a run of [main] leaves is the text of a sink of the
    selected format, opened at the first clock reading, to which a
    sequence of entries was written: the names of these entries are
    exactly the names in the found set, so that every name found has a
    record in the file and the file has no record of any other name. *)
Theorem main_file_records_found (args : Args) (path : string) :
  arg_output args = Some path -> path <> EmptyString ->
  exists entries : list Entry,
    map file (output_handlers (main args)) =
      [sink_output (format_of_path path) path (clock 0) entries] /\
    list_to_set (map entry_domain entries) = found_subdomains (main args).
Proof.
  intros Hp Hne.
  set (s0 := init (arg_domain args) (arg_threads args) (arg_output args)).
  set (h0 := open_handler (format_of_path path) path (clock 0)).
  assert (H0 : output_handlers s0 = [h0]).
  { unfold s0, h0, Scanner.init. rewrite Hp.
    destruct path as [|c path]; [contradiction|]. cbn [truthy output_handlers].
    unfold format_of_path.
    destruct (endswith _ ".json"); [reflexivity|].
    destruct (endswith _ ".csv"); reflexivity. }
  assert (Hinv : exists entries : list Entry,
             output_handlers (snd (run_scan s0 args)) =
               [fold_left write_entry entries h0] /\
             list_to_set (map entry_domain entries) =
               found_subdomains (snd (run_scan s0 args))).
  { apply (run_scan_invariant
             (fun s => exists entries : list Entry,
                         output_handlers s = [fold_left write_entry entries h0] /\
                         list_to_set (map entry_domain entries) = found_subdomains s)).
    - intros s m _ H. exact H.
    - intros s sub (entries & Hh & Hf).
      pose proof (check_subdomain_handlers s sub (arg_methods args)) as Hw.
      pose proof (check_subdomain_found resolve http_get clock s sub
                    (arg_methods args)) as Hfound.
      destruct (fst (probe s sub (arg_methods args))) as [[[name ips] method]|].
      + rewrite Hh in Hw. cbn [Scanner.write_all] in Hw.
        apply (f_equal fst) in Hw. cbn [fst] in Hw.
        exists (entries ++ [(name, ips, method, clock (clock_reads s))]).
        split.
        * rewrite Hw, fold_left_app. reflexivity.
        * rewrite Hfound, map_app, list_to_set_app_L, Hf. cbn [fst map entry_domain].
          rewrite list_to_set_cons. cbn [list_to_set].
          now rewrite (right_id_L ∅ (∪)).
      + apply (f_equal fst) in Hw. cbn [fst] in Hw.
        exists entries. split; [now rewrite Hw | now rewrite Hfound].
    - exists []. split; [exact H0 | reflexivity]. }
  destruct Hinv as (entries & Hh & Hf). exists entries.
  unfold Scanner.main. fold s0.
  destruct (run_scan s0 args) as [[|] s]; cbn [snd] in Hh, Hf;
    unfold generate_report;
    cbn [set_handlers print output_handlers found_subdomains];
    rewrite Hh; (split; [reflexivity | exact Hf]).
Qed.

(** *** Runs that probe nothing *)

Lemma run_pool_no_worker (s : SubdomainScanner) (submitted methods : list string) :
  threads s <= 0 -> run_pool s submitted methods = (Raised, s).
Proof.
  intros H. unfold Scanner.run_pool.
  destruct (threads s <=? 0) eqn:E; [reflexivity|].
  apply Z.leb_gt in E. lia.
Qed.

Lemma probe_stub_only (self : SubdomainScanner) (subdomain : string)
    (methods : list string) :
  Forall (fun m => m <> "dns" /\ m <> "http") methods ->
  probe self subdomain methods = (None, []).
Proof.
  unfold Scanner.probe. induction 1 as [|m rest [H1 H2] _ IH]; [reflexivity|].
  rewrite probe_loop_cons.
  assert (E : run_method self subdomain m None = (None, [])).
  { unfold Scanner.run_method.
    destruct (String.eqb_spec m "dns"); [contradiction|].
    destruct (String.eqb_spec m "http"); [contradiction|].
    now destruct (String.eqb m "cert"). }
  rewrite E, IH. reflexivity.
Qed.

(** X14.  The certificate method is a stub: a run of [main] whose methods
    include neither [dns] nor [http] makes no network call and finds
    nothing, whatever the candidates and the network. *)
Theorem main_with_stub_methods_only (args : Args) :
  Forall (fun m => m <> "dns" /\ m <> "http") (arg_methods args) ->
  found_subdomains (main args) = ∅ /\ net_calls (main args) = [].
Proof.
  intros Hm.
  apply (main_invariant (fun s => found_subdomains s = ∅ /\ net_calls s = [])).
  - intros s m _ H. exact H.
  - intros s sub [Hf Hc].
    rewrite check_subdomain_found, check_subdomain_calls.
    rewrite (probe_stub_only s sub _ Hm). cbn [fst snd].
    split; [exact Hf | now rewrite Hc].
  - intros s H. exact H.
  - split; reflexivity.
Qed.

(** *** The number of labels loaded *)

Lemma kept_size (lines : list string) (acc : gset string) :
  (size (fold_left
           (fun (subdomains : gset string) (line : string) =>
              let subdomain := strip line in
              if truthy subdomain && negb (startswith subdomain "#")
              then subdomains ∪ {[subdomain]} else subdomains)
           lines acc) <= size acc + length lines)%nat.
Proof.
  revert acc. induction lines as [|l lines IH]; intros acc; cbn [fold_left length].
  - lia.
  - etransitivity; [apply IH|]. cbn zeta.
    destruct (truthy (strip l) && negb (startswith (strip l) "#")); [|lia].
    rewrite size_union_alt.
    assert (size (({[strip l]} : gset string) ∖ acc) <= 1)%nat; [|lia].
    rewrite <- (size_singleton (C:=gset string) (strip l)).
    apply subseteq_size. apply subseteq_difference_l. reflexivity.
Qed.

(** X15.  Loading a word list prints the number of labels it returns, and
    returns at most one label per line of the file; the scanner itself is
    left as it was, apart from that line. *)
Theorem load_counts_labels (self : SubdomainScanner) (wordlist_file text : string) :
  read_file wordlist_file = FileText text ->
  let loaded := fst (load_subdomains_from_file self wordlist_file) in
  snd (load_subdomains_from_file self wordlist_file) =
    print self (LoadedMsg (length loaded)) /\
  (length loaded <= length (readlines text))%nat.
Proof.
  intros Hr. cbn zeta. unfold Scanner.load_subdomains_from_file. rewrite Hr.
  cbn [fst snd]. split; [reflexivity|].
  change (length (elements (kept_labels text))) with (size (kept_labels text)).
  unfold kept_labels. etransitivity; [apply kept_size|].
  rewrite size_empty. lia.
Qed.

(** *** Scanning again *)

Lemma run_tasks_domain (s : SubdomainScanner) (order methods : list string) :
  domain (run_tasks s order methods) = domain s.
Proof.
  apply (run_tasks_invariant (fun s' => domain s' = domain s)); [|reflexivity].
  intros s' sub H. destruct (check_subdomain_domain s' sub methods) as [Hd _].
  congruence.
Qed.

(** X16.  Probing again labels that were already submitted, with the same
    methods and the same network, finds nothing new: the found set after
    the second pass is the found set after the first. *)
Theorem rescan_finds_nothing_new (self : SubdomainScanner)
    (order again methods : list string) :
  (forall label, label ∈ again -> label ∈ order) ->
  found_subdomains (run_tasks (run_tasks self order methods) again methods) =
    found_subdomains (run_tasks self order methods).
Proof.
  intros Hsub.
  rewrite (run_tasks_found self methods again (run_tasks self order methods))
    by apply run_tasks_domain.
  rewrite (run_tasks_found self methods order self eq_refl).
  apply set_eq. intros x.
  rewrite !elem_of_union, !elem_of_list_to_set, !list_elem_of_omap.
  split; [|now left].
  intros [H|(label & Hin & Hp)]; [exact H|].
  right. exists label. split; [now apply Hsub | exact Hp].
Qed.

End WithEnvironment.

(** *** The theorems at work on the small environment *)

Lemma handler_receives_each_finding_witness :
  let hits := omap (fun label =>
                      fst (Scanner.probe Example.resolve Example.http_get
                             MoreExamples.reporting_scanner label ["dns"]))
                   ["www"; "nothing"; "shop"] in
  output_handlers (Scanner.run_tasks Example.resolve Example.http_get Example.clock
                     MoreExamples.reporting_scanner ["www"; "nothing"; "shop"] ["dns"]) =
    [fold_left write_entry
       (imap (fun i (f : Finding) =>
                (f, Example.clock (clock_reads MoreExamples.reporting_scanner + i)%nat))
             hits)
       MoreExamples.report_handler] /\
  clock_reads (Scanner.run_tasks Example.resolve Example.http_get Example.clock
                 MoreExamples.reporting_scanner ["www"; "nothing"; "shop"] ["dns"]) =
    (clock_reads MoreExamples.reporting_scanner + length hits)%nat.
Proof.
  apply (handler_receives_each_finding Example.resolve Example.http_get Example.clock
           MoreExamples.reporting_scanner MoreExamples.report_handler).
  reflexivity.
Defined.

Lemma main_file_records_found_witness :
  exists entries : list Entry,
    map file (output_handlers
                (Scanner.main Example.resolve Example.http_get Example.read_file
                   Example.clock Example.schedule Example.csv_args)) =
      [sink_output (format_of_path "report.csv") "report.csv" (Example.clock 0) entries] /\
    list_to_set (map entry_domain entries) =
      found_subdomains
        (Scanner.main Example.resolve Example.http_get Example.read_file
           Example.clock Example.schedule Example.csv_args).
Proof.
  apply (main_file_records_found Example.resolve Example.http_get Example.read_file
           Example.clock Example.schedule Example.csv_args "report.csv").
  - reflexivity.
  - discriminate.
Defined.

Lemma main_with_stub_methods_only_witness :
  found_subdomains (Scanner.main Example.resolve Example.http_get Example.read_file
                      Example.clock Example.schedule MoreExamples.stub_args) = ∅ /\
  net_calls (Scanner.main Example.resolve Example.http_get Example.read_file
               Example.clock Example.schedule MoreExamples.stub_args) = [].
Proof.
  apply (main_with_stub_methods_only Example.resolve Example.http_get
           Example.read_file Example.clock Example.schedule MoreExamples.stub_args).
  apply List.Forall_cons; [|apply List.Forall_nil]. split; discriminate.
Defined.

Lemma rescan_finds_nothing_new_witness :
  found_subdomains
    (Scanner.run_tasks Example.resolve Example.http_get Example.clock
       (Scanner.run_tasks Example.resolve Example.http_get Example.clock
          MoreExamples.reporting_scanner ["www"; "nothing"; "shop"] ["dns"])
       ["shop"; "www"] ["dns"]) =
  found_subdomains
    (Scanner.run_tasks Example.resolve Example.http_get Example.clock
       MoreExamples.reporting_scanner ["www"; "nothing"; "shop"] ["dns"]).
Proof.
  apply (rescan_finds_nothing_new Example.resolve Example.http_get Example.clock).
  intros label Hin.
  apply elem_of_cons in Hin as [-> | Hin].
  - do 2 apply list_elem_of_further. apply list_elem_of_here.
  - apply elem_of_cons in Hin as [-> | Hin]; [apply list_elem_of_here|].
    now apply elem_of_nil in Hin.
Defined.

Lemma load_counts_labels_witness :
  (length (fst (Scanner.load_subdomains_from_file Example.read_file
                  Example.scanner "words.txt"))
   <= length (readlines Example.words))%nat.
Proof.
  apply (proj2 (load_counts_labels Example.read_file Example.scanner
                  "words.txt" Example.words eq_refl)).
Defined.

End ScannerRuns.

(** ** Runs of the program, from the command line

    The properties of a whole run are stated on [Launch.run_main], which
    has the case where the constructor raises before [main] enters its
    [try]. *)

Module LaunchFacts.

Import Py Datetime Output Scanner Launch Runs PyFacts ScannerFacts ScannerRuns.

Section WithEnvironment.

Variable resolve : string -> option (list string).
Variable http_get : string -> option Z.
Variable read_file : string -> FileRead.
Variable clock : nat -> datetime.
Variable schedule : list string -> list string.
Variable resolver_ready : bool.
Variable can_open : string -> bool.

Abbreviation init := (Scanner.init clock).
Abbreviation probe := (Scanner.probe resolve http_get).
Abbreviation check_subdomain := (Scanner.check_subdomain resolve http_get clock).
Abbreviation run_tasks := (Scanner.run_tasks resolve http_get clock).
Abbreviation run_pool := (Scanner.run_pool resolve http_get clock schedule).
Abbreviation load_subdomains_from_file := (Scanner.load_subdomains_from_file read_file).
Abbreviation run_scan := (Scanner.run_scan resolve http_get read_file clock schedule).
Abbreviation main := (Scanner.main resolve http_get read_file clock schedule).
Abbreviation constructs := (Launch.constructs resolver_ready can_open).
Abbreviation run_main :=
  (Launch.run_main resolve http_get read_file clock schedule resolver_ready can_open).
Abbreviation candidates := (Launch.candidates read_file clock).

(** The calls a probe of the name [t] may make. *)
Abbreviation about t c :=
  (c = Resolve t \/ c = Get ("https://" +:+ t) \/ c = Get ("http://" +:+ t)).

(** A line that is neither the scan error nor the report. *)
Abbreviation opening m :=
  (m <> ScanErrorMsg /\ forall c n, m <> ReportMsg c n).

(** *** The two ends of a run *)

Lemma run_main_crashed (args : Args) :
  constructs args = false -> run_main args = Crashed.
Proof. intros H. unfold Launch.run_main. now rewrite H. Qed.

Lemma run_main_finished (args : Args) :
  constructs args = true -> run_main args = Finished (main args).
Proof. intros H. unfold Launch.run_main. now rewrite H. Qed.

(** *** Lines printed one after the other *)

Lemma prints_fields (ms : list Message) (s : SubdomainScanner) :
  domain (fold_left print ms s) = domain s /\
  threads (fold_left print ms s) = threads s /\
  found_subdomains (fold_left print ms s) = found_subdomains s /\
  checked_count (fold_left print ms s) = checked_count s /\
  output_handlers (fold_left print ms s) = output_handlers s /\
  net_calls (fold_left print ms s) = net_calls s /\
  stdout (fold_left print ms s) = stdout s ++ ms.
Proof.
  revert s. induction ms as [|m ms IH]; intros s; cbn [fold_left].
  - rewrite List.app_nil_r. repeat split.
  - destruct (IH (print s m)) as (H1 & H2 & H3 & H4 & H5 & H6 & H7).
    rewrite H1, H2, H3, H4, H5, H6, H7. cbn [print domain threads found_subdomains
      checked_count output_handlers net_calls stdout].
    rewrite <- List.app_assoc. repeat split.
Qed.

(** *** The scan, as the pool run on the candidates *)

(** Before the pool is created the scan only prints; with no candidate
    it stops there. *)
Lemma run_scan_shape (args : Args) :
  let s0 := init (arg_domain args) (arg_threads args) (arg_output args) in
  exists ms : list Message,
    Forall (fun m => opening m) ms /\
    run_scan s0 args =
      match candidates args with
      | [] => (Completed, fold_left print ms s0)
      | _ :: _ => run_pool (fold_left print ms s0) (candidates args) (arg_methods args)
      end /\
    (arg_wordlist args = None \/ arg_wordlist args = Some EmptyString ->
     ms = [CommonStartMsg (length common_subdomains)]).
Proof.
  cbn zeta.
  set (s0 := init (arg_domain args) (arg_threads args) (arg_output args)).
  assert (Hc : (arg_wordlist args = None \/
                exists w, arg_wordlist args = Some w /\ truthy w = false) ->
               exists ms : list Message,
                 Forall (fun m => opening m) ms /\
                 Scanner.common_scan resolve http_get clock schedule s0 (arg_methods args) =
                   match candidates args with
                   | [] => (Completed, fold_left print ms s0)
                   | _ :: _ => run_pool (fold_left print ms s0) (candidates args)
                                        (arg_methods args)
                   end /\
                 ms = [CommonStartMsg (length common_subdomains)]).
  { intros Hw. exists [CommonStartMsg (length common_subdomains)].
    split; [|split; [|reflexivity]].
    - apply List.Forall_cons; [split; [discriminate | intros; discriminate]
                              | apply List.Forall_nil].
    - assert (E : candidates args = common_subdomains).
      { unfold Launch.candidates.
        destruct Hw as [-> | (w & -> & ->)]; reflexivity. }
      destruct (candidates args) as [|l r]; [discriminate E|].
      rewrite E. reflexivity. }
  unfold Scanner.run_scan.
  destruct (arg_wordlist args) as [w|] eqn:Ew.
  - destruct (truthy w) eqn:Et.
    + unfold Scanner.scan_with_wordlist, Launch.candidates. rewrite Ew, Et.
      fold s0. unfold Scanner.load_subdomains_from_file.
      destruct (read_file w) as [| |text]; cbn [fst].
      * exists [FileMissingMsg w]. split; [|split; [reflexivity|]].
        -- apply List.Forall_cons; [split; [discriminate | intros; discriminate]
                                  | apply List.Forall_nil].
        -- intros [H|H]; [discriminate H|]. inversion H; subst. discriminate Et.
      * exists [ReadErrorMsg w]. split; [|split; [reflexivity|]].
        -- apply List.Forall_cons; [split; [discriminate | intros; discriminate]
                                  | apply List.Forall_nil].
        -- intros [H|H]; [discriminate H|]. inversion H; subst. discriminate Et.
      * destruct (elements (kept_labels text)) as [|x l] eqn:El.
        -- exists [LoadedMsg (size (kept_labels text))].
           split; [|split; [reflexivity|]].
           ++ apply List.Forall_cons; [split; [discriminate | intros; discriminate]
                                      | apply List.Forall_nil].
           ++ intros [H|H]; [discriminate H|]. inversion H; subst. discriminate Et.
        -- exists [LoadedMsg (size (kept_labels text));
                   ScanStartMsg (domain s0) (length (x :: l));
                   PoolMsg (threads s0)].
           split; [|split; [reflexivity|]].
           ++ repeat (apply List.Forall_cons;
                      [split; [discriminate | intros; discriminate]|]).
              apply List.Forall_nil.
           ++ intros [H|H]; [discriminate H|]. inversion H; subst. discriminate Et.
    + destruct Hc as (ms & H1 & H2 & H3).
      { right. exists w. split; [reflexivity | exact Et]. }
      exists ms. split; [exact H1|]. split; [exact H2|]. intros _. exact H3.
  - destruct Hc as (ms & H1 & H2 & H3); [now left|].
    exists ms. split; [exact H1|]. split; [exact H2|]. intros _. exact H3.
Qed.

(** *** The network calls of a run *)

Lemma run_tasks_net_calls (self : SubdomainScanner) (methods order : list string) :
  forall s, domain s = domain self ->
    net_calls (run_tasks s order methods) =
      net_calls s ++ flat_map (fun label => snd (probe self label methods)) order.
Proof.
  induction order as [|c order IH]; intros s Hd.
  - cbn. now rewrite List.app_nil_r.
  - rewrite run_tasks_cons.
    destruct (check_subdomain_domain resolve http_get clock s c methods) as [Hd' _].
    rewrite IH by congruence. rewrite check_subdomain_calls.
    rewrite (probe_same_domain resolve http_get s self c methods Hd).
    cbn [flat_map]. now rewrite List.app_assoc.
Qed.

Lemma main_net_calls (args : Args) :
  let s0 := init (arg_domain args) (arg_threads args) (arg_output args) in
  net_calls (main args) =
    match candidates args with
    | [] => []
    | _ :: _ =>
        if arg_threads args <=? 0 then []
        else flat_map (fun label => snd (probe s0 label (arg_methods args)))
                      (schedule (candidates args))
    end.
Proof.
  cbn zeta.
  set (s0 := init (arg_domain args) (arg_threads args) (arg_output args)).
  destruct (run_scan_shape args) as (ms & _ & E & _). cbn zeta in E. fold s0 in E.
  destruct (prints_fields ms s0) as (Hd & Ht & _ & _ & _ & Hn & _).
  assert (Hs : net_calls (snd (run_scan s0 args)) =
               match candidates args with
               | [] => []
               | _ :: _ =>
                   if arg_threads args <=? 0 then []
                   else flat_map (fun label => snd (probe s0 label (arg_methods args)))
                                 (schedule (candidates args))
               end).
  { change (net_calls s0) with (@nil NetCall) in Hn.
    change (threads s0) with (arg_threads args) in Ht.
    rewrite E. destruct (candidates args) as [|x l]; cbn [snd]; [exact Hn|].
    unfold Scanner.run_pool. rewrite Ht.
    destruct (arg_threads args <=? 0); cbn [snd]; [exact Hn|].
    rewrite (run_tasks_net_calls s0) by exact Hd. now rewrite Hn. }
  rewrite <- Hs. unfold Scanner.main. fold s0.
  destruct (run_scan s0 args) as [[|] s]; reflexivity.
Qed.

(** X6.  The network calls of a run are those of the probes of its
    candidates, the labels loaded from the word list or the built-in
    ones: one probe for each task the pool completes, and no call when the
    constructor raises.  Every call is made with a name that is a
    candidate label, a dot and the lowered, trimmed domain of the command
    line: a resolution of that name, or a request to [https://] or
    [http://] followed by it.  The name is put together as text, and a
    label is not checked to be a host label. *)
Theorem calls_are_probes_of_candidates (args : Args) :
  (forall submitted x, x ∈ schedule submitted -> x ∈ submitted) ->
  Forall (fun c => exists label : string,
            label ∈ candidates args /\
            about (label +:+ "." +:+ strip (lower (arg_domain args))) c)
         (calls (run_main args)) /\
  (constructs args = true -> 0 < arg_threads args ->
   calls (run_main args) =
     flat_map (fun label =>
                 snd (probe (init (arg_domain args) (arg_threads args)
                                  (arg_output args))
                            label (arg_methods args)))
              (schedule (candidates args))).
Proof.
  intros Hsched.
  set (s0 := init (arg_domain args) (arg_threads args) (arg_output args)).
  assert (Hnil : schedule [] = []).
  { destruct (schedule []) as [|x l] eqn:E; [reflexivity|].
    assert (Hx : x ∈ schedule []) by (rewrite E; apply list_elem_of_here).
    apply Hsched in Hx. now apply elem_of_nil in Hx. }
  assert (Hp : Forall (fun c => exists label : string,
                         label ∈ candidates args /\
                         about (label +:+ "." +:+ strip (lower (arg_domain args))) c)
                      (flat_map (fun label => snd (probe s0 label (arg_methods args)))
                                (schedule (candidates args)))).
  { apply Forall_flat_map. apply Forall_forall. intros label Hin.
    destruct (probe_loop_calls resolve http_get s0 label (arg_methods args) None)
      as [Hc _].
    eapply Forall_impl; [exact Hc|]. intros c Hc'. exists label.
    split; [now apply Hsched | exact Hc']. }
  pose proof (main_net_calls args) as Hm. cbn zeta in Hm. fold s0 in Hm.
  split.
  - unfold Launch.run_main. destruct (constructs args); cbn [calls];
      [|apply List.Forall_nil].
    rewrite Hm. destruct (candidates args) as [|x l]; [apply List.Forall_nil|].
    destruct (arg_threads args <=? 0); [apply List.Forall_nil | exact Hp].
  - intros Hc Ht. rewrite (run_main_finished args Hc). cbn [calls]. rewrite Hm.
    destruct (candidates args) as [|x l]; [now rewrite Hnil|].
    destruct (arg_threads args <=? 0) eqn:E; [|reflexivity].
    apply Z.leb_le in E. lia.
Qed.

(** *** The report *)

Lemma run_scan_no_report (args : Args) :
  let s0 := init (arg_domain args) (arg_threads args) (arg_output args) in
  Forall (fun m => forall c n, m <> ReportMsg c n) (stdout (snd (run_scan s0 args))).
Proof.
  cbn zeta.
  set (s0 := init (arg_domain args) (arg_threads args) (arg_output args)).
  destruct (run_scan_shape args) as (ms & Hms & E & _). cbn zeta in E. fold s0 in E.
  destruct (prints_fields ms s0) as (_ & _ & _ & _ & _ & _ & Hout).
  assert (H1 : Forall (fun m => forall c n, m <> ReportMsg c n)
                      (stdout (fold_left print ms s0))).
  { rewrite Hout. cbn [Scanner.init stdout app].
    eapply Forall_impl; [exact Hms|]. intros m [_ H]. exact H. }
  rewrite E. destruct (candidates args) as [|x l]; cbn [snd]; [exact H1|].
  unfold Scanner.run_pool. destruct (threads _ <=? 0); cbn [snd]; [exact H1|].
  apply (run_tasks_invariant resolve http_get clock
           (fun s => Forall (fun m => forall c n, m <> ReportMsg c n) (stdout s)));
    [|exact H1].
  intros s sub Hs. rewrite check_subdomain_stdout. apply Forall_app.
  split; [exact Hs|].
  destruct (fst (probe s sub (arg_methods args))) as [[[name ips] method]|].
  - apply List.Forall_cons; [intros; discriminate | apply List.Forall_nil].
  - destruct (_ =? 0); [|apply List.Forall_nil].
    apply List.Forall_cons; [intros; discriminate | apply List.Forall_nil].
Qed.

(** X10.  When the scanner can be constructed, the program ends by
    printing the report, on the normal path and after a scan error alike,
    and prints it once: the final count of checks and the names found,
    each once, in increasing order of their characters.  When the
    constructor raises (the resolver cannot be created, or the output file
    cannot be opened) the program stops before its [try] and prints no
    report. *)
Theorem run_ends_with_sorted_report (args : Args) :
  (constructs args = false ->
   run_main args = Crashed /\ printed (run_main args) = []) /\
  (constructs args = true ->
   exists (s : SubdomainScanner) (before : list Message) (names : list string),
     run_main args = Finished s /\
     stdout s = before ++ [ReportMsg (checked_count s) names] /\
     Forall (fun m => forall c n, m <> ReportMsg c n) before /\
     StronglySorted String.le names /\
     NoDup names /\
     forall x, x ∈ names <-> x ∈ found_subdomains s).
Proof.
  split.
  - intros H. rewrite (run_main_crashed args H). split; reflexivity.
  - intros H. rewrite (run_main_finished args H).
    pose proof (run_scan_no_report args) as Hno. cbn zeta in Hno.
    unfold Scanner.main.
    destruct (run_scan _ args) as [[|] s]; cbn [snd] in Hno.
    + destruct (generate_report_prints s) as (names & H1 & H2 & H3 & H4 & H5 & H6).
      exists (generate_report s), (stdout s), names.
      rewrite H2, H3. repeat split; try assumption; apply H6.
    + destruct (generate_report_prints (print s ScanErrorMsg))
        as (names & H1 & H2 & H3 & H4 & H5 & H6).
      exists (generate_report (print s ScanErrorMsg)), (stdout s ++ [ScanErrorMsg]), names.
      rewrite H2, H3. repeat split; try assumption; try apply H6.
      apply Forall_app. split; [exact Hno|].
      apply List.Forall_cons; [intros; discriminate | apply List.Forall_nil].
Qed.

(** *** The output file *)

(** X11.  A run with a non-empty output path whose file cannot be opened
    stops in the constructor: no scan, no report, no handler.  When the
    scanner can be constructed, the run leaves exactly one handler, on that
    path, closed, and of the format the extension selects: [.json] gives
    the JSON format, otherwise [.csv] gives CSV, and any other path gives
    plain text.  With no output path, or an empty one, there is no
    handler. *)
Theorem run_output_file (args : Args) :
  (forall path, arg_output args = Some path -> path <> EmptyString ->
     can_open path = false ->
     run_main args = Crashed /\ handlers (run_main args) = []) /\
  (forall path, arg_output args = Some path -> path <> EmptyString ->
     constructs args = true ->
     exists h, handlers (run_main args) = [h] /\ filename h = path /\
               closed h = true /\
               same_format (sink h) (format_of_path path) = true) /\
  (arg_output args = None \/ arg_output args = Some EmptyString ->
   handlers (run_main args) = []).
Proof.
  destruct (main_handlers_shape resolve http_get read_file clock schedule args)
    as [Hsome Hnone].
  split; [|split].
  - intros path Hp Hne Hno.
    assert (Hc : constructs args = false).
    { unfold Launch.constructs, output_opens. rewrite Hp.
      apply truthy_iff in Hne. rewrite Hne, Hno. apply andb_false_r. }
    rewrite (run_main_crashed args Hc). split; reflexivity.
  - intros path Hp Hne Hc. rewrite (run_main_finished args Hc). cbn [handlers].
    now apply Hsome.
  - intros Hn. unfold Launch.run_main.
    destruct (constructs args); cbn [handlers]; [now apply Hnone | reflexivity].
Qed.

(** *** Runs with no worker *)

(** X13.  With a number of threads that is not positive the pool cannot
    be created.  A run whose scanner can be constructed then checks no
    label, finds nothing, makes no network call and closes its handlers.
    When there are candidates (always so with the built-in list, that is
    with no word list or an empty path) it prints the scan error and,
    immediately after it, the report, which is the last line; with the
    built-in list these two lines follow the announcement of the scan and
    nothing else is printed.  When the word list gives no label the scan
    returns before the pool: no error is printed, and the report is still
    the last line. *)
Theorem run_without_workers (args : Args) :
  arg_threads args <= 0 ->
  constructs args = true ->
  exists (s : SubdomainScanner) (before : list Message),
    run_main args = Finished s /\
    checked_count s = 0 /\
    found_subdomains s = ∅ /\
    net_calls s = [] /\
    Forall (fun h => closed h = true) (output_handlers s) /\
    Forall (fun m => opening m) before /\
    stdout s =
      before ++
      match candidates args with
      | [] => [ReportMsg 0 []]
      | _ :: _ => [ScanErrorMsg; ReportMsg 0 []]
      end /\
    (arg_wordlist args = None \/ arg_wordlist args = Some EmptyString ->
     stdout s = [CommonStartMsg 90; ScanErrorMsg; ReportMsg 0 []]).
Proof.
  intros Ht Hc. rewrite (run_main_finished args Hc).
  set (s0 := init (arg_domain args) (arg_threads args) (arg_output args)).
  destruct (run_scan_shape args) as (ms & Hms & E & Hcommon).
  cbn zeta in E. fold s0 in E.
  destruct (prints_fields ms s0) as (_ & Hth & Hf & Hn & _ & Hcalls & Hout).
  set (s1 := fold_left print ms s0) in *.
  assert (Hclosed : forall hs, Forall (fun h => closed h = true) (close_all hs)).
  { intros hs. induction hs as [|h hs IH]; cbn; constructor; auto. }
  assert (Hcands : arg_wordlist args = None \/ arg_wordlist args = Some EmptyString ->
                   exists x l, candidates args = x :: l).
  { intros Hw. unfold Launch.candidates.
    destruct Hw as [-> | ->]; eexists _, _; reflexivity. }
  assert (Hrun : run_scan s0 args =
                 match candidates args with
                 | [] => (Completed, s1)
                 | _ :: _ => (Raised, s1)
                 end).
  { rewrite E. destruct (candidates args) as [|x l]; [reflexivity|].
    apply run_pool_no_worker. now rewrite Hth. }
  assert (Hempty : merge_sort String.le (elements (found_subdomains s1)) = []).
  { rewrite Hf. change (found_subdomains s0) with (∅ : gset string).
    now rewrite elements_empty. }
  exists (main args), ms. split; [reflexivity|].
  unfold Scanner.main. fold s0. rewrite Hrun.
  destruct (candidates args) as [|x l] eqn:Ec; unfold generate_report;
    cbn [set_handlers print checked_count found_subdomains net_calls
         output_handlers stdout];
    rewrite Hempty, Hn, Hout; cbn [Scanner.init checked_count stdout app].
  - repeat split; try assumption; try apply Hclosed.
    intros Hw. destruct (Hcands Hw) as (x & l & Hx). discriminate Hx.
  - rewrite <- List.app_assoc. cbn [app].
    repeat split; try assumption; try apply Hclosed.
    intros Hw. now rewrite (Hcommon Hw).
Qed.

End WithEnvironment.

(** *** The theorems at work on the small environment *)

(** A word list with the line [evil.org/]: the requests are made with the
    text [evil.org/.example.com] after the scheme. *)
Lemma calls_are_probes_of_candidates_witness :
  Launch.candidates MoreExamples.odd_read_file Example.clock MoreExamples.odd_args =
    ["www"; "evil.org/"] /\
  calls (Launch.run_main Example.resolve Example.http_get MoreExamples.odd_read_file
           Example.clock Example.schedule true MoreExamples.can_open
           MoreExamples.odd_args) =
    [Get "https://evil.org/.example.com"; Get "http://evil.org/.example.com";
     Get "https://www.example.com"].
Proof.
  split; [vm_compute; reflexivity|].
  destruct (calls_are_probes_of_candidates Example.resolve Example.http_get
              MoreExamples.odd_read_file Example.clock Example.schedule true
              MoreExamples.can_open MoreExamples.odd_args) as [_ H].
  - intros submitted x Hx. now rewrite pool_order_is_permutation in Hx.
  - rewrite H; [|reflexivity|reflexivity]. vm_compute. reflexivity.
Defined.

Lemma run_ends_with_sorted_report_witness :
  (Launch.run_main Example.resolve Example.http_get Example.read_file Example.clock
     Example.schedule true MoreExamples.can_open MoreExamples.unopenable_args = Crashed /\
   printed (Launch.run_main Example.resolve Example.http_get Example.read_file
              Example.clock Example.schedule true MoreExamples.can_open
              MoreExamples.unopenable_args) = []) /\
  exists (s : SubdomainScanner) (before : list Message) (names : list string),
    Launch.run_main Example.resolve Example.http_get Example.read_file Example.clock
      Example.schedule true MoreExamples.can_open Example.common_args = Finished s /\
    stdout s = before ++ [ReportMsg (checked_count s) names] /\
    Forall (fun m => forall c n, m <> ReportMsg c n) before /\
    StronglySorted String.le names /\
    NoDup names /\
    forall x, x ∈ names <-> x ∈ found_subdomains s.
Proof.
  split.
  - apply (proj1 (run_ends_with_sorted_report Example.resolve Example.http_get
                    Example.read_file Example.clock Example.schedule true
                    MoreExamples.can_open MoreExamples.unopenable_args)).
    reflexivity.
  - apply (proj2 (run_ends_with_sorted_report Example.resolve Example.http_get
                    Example.read_file Example.clock Example.schedule true
                    MoreExamples.can_open Example.common_args)).
    reflexivity.
Defined.

Lemma run_output_file_witness :
  (Launch.run_main Example.resolve Example.http_get Example.read_file Example.clock
     Example.schedule true MoreExamples.can_open MoreExamples.unopenable_args = Crashed /\
   handlers (Launch.run_main Example.resolve Example.http_get Example.read_file
               Example.clock Example.schedule true MoreExamples.can_open
               MoreExamples.unopenable_args) = []) /\
  exists h : OutputHandler,
    handlers (Launch.run_main Example.resolve Example.http_get Example.read_file
                Example.clock Example.schedule true MoreExamples.can_open
                Example.csv_args) = [h] /\
    filename h = "report.csv" /\ closed h = true /\
    same_format (sink h) CSVOutput = true.
Proof.
  split.
  - apply (proj1 (run_output_file Example.resolve Example.http_get
                    Example.read_file Example.clock Example.schedule true
                    MoreExamples.can_open MoreExamples.unopenable_args)
             "nodir/out.json"); [reflexivity | discriminate | reflexivity].
  - apply (proj1 (proj2 (run_output_file Example.resolve Example.http_get
                           Example.read_file Example.clock Example.schedule true
                           MoreExamples.can_open Example.csv_args))
             "report.csv"); [reflexivity | discriminate | reflexivity].
Defined.

(** No worker: with the built-in list, with an empty word list path, and
    with a word list of comments. *)
Lemma run_without_workers_witness :
  (exists s : SubdomainScanner,
     Launch.run_main Example.resolve Example.http_get Example.read_file Example.clock
       Example.schedule true MoreExamples.can_open MoreExamples.no_worker_args =
       Finished s /\
     checked_count s = 0 /\ net_calls s = [] /\
     Forall (fun h => closed h = true) (output_handlers s) /\
     stdout s = [CommonStartMsg 90; ScanErrorMsg; ReportMsg 0 []]) /\
  (exists s : SubdomainScanner,
     Launch.run_main Example.resolve Example.http_get Example.read_file Example.clock
       Example.schedule true MoreExamples.can_open MoreExamples.no_worker_builtin_args =
       Finished s /\
     stdout s = [CommonStartMsg 90; ScanErrorMsg; ReportMsg 0 []]) /\
  (exists (s : SubdomainScanner) (before : list Message),
     Launch.run_main Example.resolve Example.http_get MoreExamples.odd_read_file
       Example.clock Example.schedule true MoreExamples.can_open
       MoreExamples.no_worker_blank_args = Finished s /\
     Forall (fun m => m <> ScanErrorMsg /\ forall c n, m <> ReportMsg c n) before /\
     stdout s = before ++ [ReportMsg 0 []]).
Proof.
  split; [|split].
  - destruct (run_without_workers Example.resolve Example.http_get Example.read_file
                Example.clock Example.schedule true MoreExamples.can_open
                MoreExamples.no_worker_args)
      as (s & before & Hrun & H1 & _ & H3 & H4 & _ & _ & H6);
      [cbn; lia | reflexivity |].
    exists s. repeat split; try assumption. apply H6. now left.
  - destruct (run_without_workers Example.resolve Example.http_get Example.read_file
                Example.clock Example.schedule true MoreExamples.can_open
                MoreExamples.no_worker_builtin_args)
      as (s & before & Hrun & _ & _ & _ & _ & _ & _ & H6);
      [cbn; lia | reflexivity |].
    exists s. split; [exact Hrun|]. apply H6. now right.
  - destruct (run_without_workers Example.resolve Example.http_get
                MoreExamples.odd_read_file Example.clock Example.schedule true
                MoreExamples.can_open MoreExamples.no_worker_blank_args)
      as (s & before & Hrun & _ & _ & _ & _ & H5 & H6 & _);
      [cbn; lia | reflexivity |].
    exists s, before. split; [exact Hrun|]. split; [exact H5|].
    rewrite H6. reflexivity.
Defined.

End LaunchFacts.

(** ** The entry reader at work *)

Module JsonCodingExamples.

Import Py Datetime Json Output JsonCoding.

Lemma json_entry_injective_witness :
  "www.example.com" = "www.example.com" /\
  ["93.184.216.34"] = ["93.184.216.34"] /\
  "DNS" = "DNS" /\
  isoformat (Example.clock 1) = isoformat (Example.clock 1).
Proof.
  apply (json_entry_injective "www.example.com" "www.example.com"
           ["93.184.216.34"] ["93.184.216.34"] "DNS" "DNS"
           (Example.clock 1) (Example.clock 1)).
  reflexivity.
Defined.

End JsonCodingExamples.
